(** * ai-server: the Express request handlers of [src/index.js]

    A shallow embedding of the five request handlers (news lookup, post
    drafting, OAuth redirect, OAuth callback, publish) together with the
    fragment of JavaScript they rely on: strings as sequences of UTF-16 code
    units, JSON-like values, truthiness, [ToString], property reads,
    [encodeURIComponent] and [String.prototype.trim].

    Outbound HTTP calls (axios) are the only effect of a handler.  A handler
    is a small tree: it either finishes with an outcome or awaits one
    outbound request and continues with its result. *)

From Stdlib Require Import ZArith NArith List String Ascii Lia SpecFloat DecimalString.
From stdpp Require Import base option list gmap.

Set Warnings "-register-all".

Local Open Scope N_scope.

(* ===================================================================== *)
(** * JavaScript strings *)
(* ===================================================================== *)

(** A JavaScript string is a finite sequence of 16-bit code units. *)
Abbreviation jsstring := (list N).

(** The ASCII literals of the source, as code units. *)
Definition js (s : string) : jsstring :=
  map N_of_ascii (list_ascii_of_string s).

Module CodeUnit.

Definition in_range (lo hi c : N) : bool := (lo <=? c) && (c <=? hi).

Definition is_high_surrogate (c : N) : bool := in_range 0xD800 0xDBFF c.
Definition is_low_surrogate (c : N) : bool := in_range 0xDC00 0xDFFF c.

(** ECMAScript WhiteSpace and LineTerminator: what [trim] removes. *)
Definition is_whitespace (c : N) : bool :=
  in_range 0x0009 0x000D c        (* TAB, LF, VT, FF, CR *)
  || (c =? 0x0020) || (c =? 0x00A0) || (c =? 0x1680)
  || in_range 0x2000 0x200A c
  || (c =? 0x2028) || (c =? 0x2029) || (c =? 0x202F)
  || (c =? 0x205F) || (c =? 0x3000) || (c =? 0xFEFF).

(** uriUnescaped of ECMAScript: letters, digits and [- _ . ! ~ * ' ( )]. *)
Definition is_uri_unescaped (c : N) : bool :=
  in_range 0x41 0x5A c || in_range 0x61 0x7A c || in_range 0x30 0x39 c
  || existsb (N.eqb c) [0x2D; 0x5F; 0x2E; 0x21; 0x7E; 0x2A; 0x27; 0x28; 0x29].

End CodeUnit.
Import CodeUnit.

(** ** Exceptions *)

Inductive JsError : Type := TypeError | URIError.

(** The completion of an expression: a value, or a thrown exception. *)
Inductive Completion (A : Type) : Type :=
| Normal (a : A)
| Throw (e : JsError).
Arguments Normal {A} a.
Arguments Throw {A} e.

#[global] Instance Completion_ret : MRet Completion := fun _ a => Normal a.
#[global] Instance Completion_bind : MBind Completion := fun _ _ f m =>
  match m with
  | Normal a => f a
  | Throw e => Throw e
  end.

(** ** encodeURIComponent *)

Definition hex_digit (d : N) : N :=
  if d <? 10 then 0x30 + d else 0x41 + (d - 10).

(** One octet as [%XX], upper-case hexadecimal. *)
Definition percent_octet (b : N) : jsstring :=
  [0x25; hex_digit (N.shiftr b 4); hex_digit (N.land b 0xF)].

(** The UTF-8 octets of a code point. *)
Definition utf8_octets (cp : N) : list N :=
  if cp <? 0x80 then [cp]
  else if cp <? 0x800 then
    [N.lor 0xC0 (N.shiftr cp 6); N.lor 0x80 (N.land cp 0x3F)]
  else if cp <? 0x10000 then
    [N.lor 0xE0 (N.shiftr cp 12);
     N.lor 0x80 (N.land (N.shiftr cp 6) 0x3F);
     N.lor 0x80 (N.land cp 0x3F)]
  else
    [N.lor 0xF0 (N.shiftr cp 18);
     N.lor 0x80 (N.land (N.shiftr cp 12) 0x3F);
     N.lor 0x80 (N.land (N.shiftr cp 6) 0x3F);
     N.lor 0x80 (N.land cp 0x3F)].

Definition percent_encode (cp : N) : jsstring :=
  concat (map percent_octet (utf8_octets cp)).

Definition surrogate_pair (hi lo : N) : N :=
  (hi - 0xD800) * 0x400 + (lo - 0xDC00) + 0x10000.

(** [encodeURIComponent] on a string: the Encode operation of ECMAScript
    with the uriUnescaped set.  A surrogate that is not part of a pair makes
    it throw a URIError. *)
Fixpoint encodeURIComponent (s : jsstring) : Completion jsstring :=
  match s with
  | [] => Normal []
  | c :: rest =>
      if is_uri_unescaped c then
        match encodeURIComponent rest with
        | Normal r => Normal (c :: r)
        | Throw e => Throw e
        end
      else if is_low_surrogate c then Throw URIError
      else if is_high_surrogate c then
        match rest with
        | d :: rest' =>
            if is_low_surrogate d then
              match encodeURIComponent rest' with
              | Normal r => Normal (percent_encode (surrogate_pair c d) ++ r)
              | Throw e => Throw e
              end
            else Throw URIError
        | [] => Throw URIError
        end
      else
        match encodeURIComponent rest with
        | Normal r => Normal (percent_encode c ++ r)
        | Throw e => Throw e
        end
  end.

(** Well-formed UTF-16: every surrogate is half of a pair.  Strings decoded
    from a query string or read from the process environment are
    well-formed. *)
Fixpoint well_formed (s : jsstring) : bool :=
  match s with
  | [] => true
  | c :: rest =>
      if is_low_surrogate c then false
      else if is_high_surrogate c then
        match rest with
        | d :: rest' => is_low_surrogate d && well_formed rest'
        | [] => false
        end
      else well_formed rest
  end.

(** ** String.prototype.trim *)

Fixpoint trimStart (s : jsstring) : jsstring :=
  match s with
  | c :: rest => if is_whitespace c then trimStart rest else s
  | [] => []
  end.

Definition trimEnd (s : jsstring) : jsstring := rev (trimStart (rev s)).

Definition trim (s : jsstring) : jsstring := trimEnd (trimStart s).

(* ===================================================================== *)
(** * JavaScript values *)
(* ===================================================================== *)

(** The values the handlers see: what [JSON.parse], the query-string parser
    and xml2js build, plus [undefined].  Numbers are IEEE-754 doubles. *)
Inductive JsVal : Type :=
| JUndefined
| JNull
| JBool (b : bool)
| JNum (x : spec_float)
| JStr (s : jsstring)
| JArr (l : list JsVal)
| JObj (o : gmap jsstring JsVal).

(** ToBoolean. *)
Definition truthy (v : JsVal) : bool :=
  match v with
  | JUndefined | JNull => false
  | JBool b => b
  | JNum (S754_zero _) | JNum S754_nan => false
  | JNum _ => true
  | JStr [] => false
  | JStr (_ :: _) => true
  | JArr _ | JObj _ => true
  end.

(** [a || b]. *)
Definition js_or (a b : JsVal) : JsVal := if truthy a then a else b.

(** [Array.isArray]. *)
Definition isArray (v : JsVal) : bool :=
  match v with JArr _ => true | _ => false end.

(** [o.name] on a plain object: an own data property or [undefined]. *)
Definition own (o : gmap jsstring JsVal) (name : jsstring) : JsVal :=
  default JUndefined (o !! name).

(** [v.name] for a property name that no built-in prototype defines for the
    receiver.  Reading a property of [undefined] or [null] throws; a
    primitive or an array has no such property.  (Of the names the source
    reads, only [link] exists on a prototype, String.prototype.link; the
    source reads [item.link] after [item.title[0]], which has thrown for a
    string [item].) *)
Definition get_prop (v : JsVal) (name : jsstring) : Completion JsVal :=
  match v with
  | JUndefined | JNull => Throw TypeError
  | JObj o => Normal (own o name)
  | _ => Normal JUndefined
  end.

(** The decimal spelling of an array index, as a property key. *)
Definition index_key (i : nat) : jsstring :=
  js (NilEmpty.string_of_uint (Nat.to_uint i)).

(** [v[i]] for an array index [i]. *)
Definition get_index (v : JsVal) (i : nat) : Completion JsVal :=
  match v with
  | JUndefined | JNull => Throw TypeError
  | JArr l => Normal (default JUndefined (l !! i))
  | JStr s => Normal (from_option (fun c => JStr [c]) JUndefined (s !! i))
  | JObj o => Normal (own o (index_key i))
  | _ => Normal JUndefined
  end.

(** [v?.name]. *)
Definition get_prop_opt (v : JsVal) (name : jsstring) : JsVal :=
  match v with
  | JObj o => own o name
  | _ => JUndefined
  end.

Section ToString.

(** Number::toString of the JavaScript runtime. *)
Variable NumberToString : spec_float -> jsstring.

(** ToString.  A plain object prints as [[object Object]] through
    Object.prototype.toString; an own [toString] property (never callable
    in parsed data) shadows it and the conversion throws.  An array joins
    its elements with commas, [null] and [undefined] printing as empty. *)
Fixpoint ToString (v : JsVal) : Completion jsstring :=
  match v with
  | JUndefined => Normal (js "undefined")
  | JNull => Normal (js "null")
  | JBool true => Normal (js "true")
  | JBool false => Normal (js "false")
  | JNum x => Normal (NumberToString x)
  | JStr s => Normal s
  | JArr l =>
      let element (x : JsVal) : Completion jsstring :=
        match x with
        | JUndefined | JNull => Normal []
        | _ => ToString x
        end in
      (fix join (l : list JsVal) : Completion jsstring :=
         match l with
         | [] => Normal []
         | [x] => element x
         | x :: rest =>
             match element x with
             | Normal s =>
                 match join rest with
                 | Normal r => Normal (s ++ js "," ++ r)
                 | Throw e => Throw e
                 end
             | Throw e => Throw e
             end
         end) l
  | JObj o =>
      match o !! js "toString" with
      | Some _ => Throw TypeError
      | None => Normal (js "[object Object]")
      end
  end.

(** [encodeURIComponent(v)]: ToString, then the encoding. *)
Definition encodeURIComponent_of (v : JsVal) : Completion jsstring :=
  s ← ToString v; encodeURIComponent s.

(** [v.trim()]: only a string has the method. *)
Definition call_trim (v : JsVal) : Completion jsstring :=
  match v with
  | JStr s => Normal (trim s)
  | _ => Throw TypeError
  end.

End ToString.

(** Object and string literals of the source. *)
Definition text (s : string) : JsVal := JStr (js s).

Definition field (name : string) (v : JsVal) : jsstring * JsVal := (js name, v).

Definition object (fields : list (jsstring * JsVal)) : JsVal :=
  JObj (list_to_map fields).

(* ===================================================================== *)
(** * Requests, responses and outbound calls *)
(* ===================================================================== *)

(** [process.env]: each variable is a string or unset. *)
Record Env : Type := {
  OPENROUTER_API_KEY : option jsstring;
  HTTP_REFERER : option jsstring;
  LINKEDIN_CLIENT_ID : option jsstring;
  LINKEDIN_CLIENT_SECRET : option jsstring;
  LINKEDIN_REDIRECT_URI : option jsstring;
  FRONTEND_URL : option jsstring
}.

Definition env_val (x : option jsstring) : JsVal :=
  from_option JStr JUndefined x.

(** What a handler sends back: [res.status(n).json(body)] ([res.json] is
    status 200) or [res.redirect(url)]. *)
Inductive Response : Type :=
| Json (status : N) (body : JsVal)
| Redirect (location : jsstring).

(** How a handler invocation ends.  [Uncaught]: an exception left the
    handler function, none of the source's own [catch] blocks having caught
    it. *)
Inductive Outcome : Type :=
| Replied (r : Response)
| Uncaught (e : JsError).

Inductive Method : Type := GET | POST.

(** An axios call: [axios.get(url)] or [axios.post(url, data, config)]. *)
Record AxiosRequest : Type := {
  method : Method;
  url : jsstring;
  data : JsVal;
  params : JsVal;
  headers : JsVal
}.

(** The promise of an axios call: fulfilled with a response, of which the
    handlers read [data] only, or rejected with an error whose
    [response.data] is there when the server answered. *)
Inductive AxiosResult : Type :=
| Fulfilled (response_data : JsVal)
| Rejected (error_response_data : option JsVal).

(** What a [catch] block receives: the rejection of the awaited call, or an
    exception thrown inside the [try] block. *)
Inductive Caught : Type :=
| AxiosError (error_response_data : option JsVal)
| Exception (e : JsError).

(** [error.response?.data?.name] *)
Definition error_response_data_prop (c : Caught) (name : jsstring) : JsVal :=
  match c with
  | AxiosError (Some d) => get_prop_opt d name
  | _ => JUndefined
  end.

(** A handler: finished, or awaiting an outbound call. *)
Inductive Handler (A : Type) : Type :=
| Done (a : A)
| Await (rq : AxiosRequest) (k : AxiosResult -> Handler A).
Arguments Done {A} a.
Arguments Await {A} rq k.

(** Running a handler against the network: the outbound calls it issued, in
    order, and how it ended. *)
Fixpoint run {A : Type} (net : AxiosRequest -> AxiosResult) (h : Handler A)
  : list AxiosRequest * A :=
  match h with
  | Done a => ([], a)
  | Await rq k => let (calls, a) := run net (k (net rq)) in (rq :: calls, a)
  end.

Definition reply (r : Response) : Handler Outcome := Done (Replied r).

Definition axios_get (u : jsstring) : AxiosRequest :=
  {| method := GET; url := u; data := JUndefined; params := JUndefined;
     headers := JUndefined |}.

Definition axios_post (u : jsstring) (d p h : JsVal) : AxiosRequest :=
  {| method := POST; url := u; data := d; params := p; headers := h |}.

(** The result of [xml2js.parseString]: the callback is invoked with an
    error, or with [null] and the parsed tree. *)
Inductive ParseOutcome : Type :=
| ParseError (err : JsVal)
| Parsed (result : JsVal).

(** An Article, as the news handler builds it. *)
Record Article : Type := {
  title : JsVal;
  link : JsVal;
  pubDate : JsVal;
  description : JsVal
}.

Definition article_json (a : Article) : JsVal :=
  object [field "title" (title a); field "link" (link a);
          field "pubDate" (pubDate a); field "description" (description a)].

(* ===================================================================== *)
(** * The handlers *)
(* ===================================================================== *)

Section Server.

(** Number::toString of the runtime, and [xml2js.parseString] as a
    function from the fetched document to what its callback receives.  The
    callback runs inside the call of [parseString]: what it throws
    propagates into the [try] block around the call. *)
Variable NumberToString : spec_float -> jsstring.
Variable parseString : JsVal -> ParseOutcome.

Let ToString := ToString NumberToString.
Let encodeURIComponent_of := encodeURIComponent_of NumberToString.

(** [process.env.NAME || fallback], both strings. *)
Definition env_or (x : option jsstring) (fallback : string) : jsstring :=
  match x with
  | Some (c :: s) => c :: s
  | _ => js fallback
  end.

Definition frontendUrl (env : Env) : jsstring :=
  env_or (FRONTEND_URL env) "http://localhost:3000".

(** ** GET /news *)

(** [items.map((item) => ({ title: item.title[0], ... }))], one item. *)
Definition article_of_item (item : JsVal) : Completion Article :=
  t ← get_prop item (js "title"); t0 ← get_index t 0;
  l ← get_prop item (js "link"); l0 ← get_index l 0;
  p ← get_prop item (js "pubDate"); p0 ← get_index p 0;
  d ← get_prop item (js "description");
  d0 ← (if truthy d then get_index d 0
        else Normal (text "No description available"));
  mret {| title := t0; link := l0; pubDate := p0; description := d0 |}.

(** [v.slice(0, 5)]: arrays and strings have the method. *)
Definition call_slice_0_5 (v : JsVal) : Completion JsVal :=
  match v with
  | JArr l => Normal (JArr (take 5 l))
  | JStr s => Normal (JStr (take 5 s))
  | _ => Throw TypeError
  end.

(** [v.map(f)]: only arrays have the method. *)
Definition call_map {B : Type} (f : JsVal -> Completion B) (v : JsVal)
  : Completion (list B) :=
  match v with
  | JArr l => mapM f l
  | _ => Throw TypeError
  end.

Definition not_found : Response :=
  Json 404 (object [field "error" (text "No articles found for this keyword")]).

(** The callback given to [xml2js.parseString]. *)
Definition news_callback (err result : JsVal) : Completion Response :=
  if truthy err then
    Normal (Json 500 (object [field "error" (text "Failed to parse RSS feed")]))
  else
    rss ← get_prop result (js "rss");
    if negb (truthy rss) then Normal not_found else
    channel ← get_prop rss (js "channel");
    if negb (truthy channel) then Normal not_found else
    channel0 ← get_index channel 0;
    if negb (truthy channel0) then Normal not_found else
    item ← get_prop channel0 (js "item");
    if negb (truthy item) then Normal not_found else
    items ← call_slice_0_5 item;
    articles ← call_map article_of_item items;
    Normal (Json 200 (object [field "articles" (JArr (article_json <$> articles))])).

Definition fetch_failed : Response :=
  Json 500 (object [field "error" (text "Failed to fetch news")]).

Definition news (query : gmap jsstring JsVal) : Handler Outcome :=
  let keyword := own query (js "keyword") in
  if negb (truthy keyword) then
    reply (Json 400 (object [field "error" (text "Keyword is required")]))
  else
    (* try *)
    match encodeURIComponent_of keyword with
    | Throw _ => reply fetch_failed
    | Normal q =>
        Await (axios_get (js "https://news.google.com/rss/search?q=" ++ q))
          (fun response =>
             match response with
             | Rejected _ => reply fetch_failed
             | Fulfilled response_data =>
                 let called :=
                   match parseString response_data with
                   | ParseError err => news_callback err JUndefined
                   | Parsed result => news_callback JNull result
                   end in
                 match called with
                 | Normal r => reply r
                 | Throw _ => reply fetch_failed (* catch *)
                 end
             end)
    end.

(** ** POST /generate-post *)

(** [`(${i + 1}) ${a.title} - ${a.description}`] *)
Definition prompt_line (i : nat) (a : JsVal) : Completion jsstring :=
  t ← get_prop a (js "title"); ts ← ToString t;
  d ← get_prop a (js "description"); ds ← ToString d;
  mret (js "(" ++ index_key (i + 1) ++ js ") " ++ ts ++ js " - " ++ ds).

(** [lines.join(sep)] on strings. *)
Fixpoint join (sep : jsstring) (lines : list jsstring) : jsstring :=
  match lines with
  | [] => []
  | [l] => l
  | l :: rest => l ++ sep ++ join sep rest
  end.

(** [articles.map((a, i) => ...).join("\n\n")] *)
Definition prompt_content (articles : JsVal) : Completion jsstring :=
  match articles with
  | JArr l =>
      lines ← mapM (fun ia => prompt_line (fst ia) (snd ia)) (imap pair l);
      mret (join [0x0A; 0x0A] lines)
  | _ => Throw TypeError
  end.

(** [articles.length === 0], read once [articles] is known to be an array. *)
Definition length_is_zero (v : JsVal) : bool :=
  match v with
  | JArr [] => true
  | _ => false
  end.

Definition system_message : JsVal :=
  object [field "role" (text "system");
          field "content" (text "You are an expert content writer who creates short, engaging, and opinionated LinkedIn posts based on recent news. Keep posts professional but engaging.")].

Definition user_message (content : jsstring) : JsVal :=
  object [field "role" (text "user");
          field "content" (JStr (
            js "Here are some news articles:" ++ [0x0A; 0x0A] ++ content
            ++ [0x0A; 0x0A]
            ++ js "Generate a 5-7 line opinionated LinkedIn post. Start directly with an opinion. Keep it relevant, thoughtful, and professional. Use emojis sparingly."))].

(** The doubles 0.7 and 300. *)
Definition temperature : JsVal := JNum (S754_finite false 6305039478318694 (-53)).
Definition max_tokens : JsVal := JNum (S754_finite false 5277655813324800 (-44)).

(** [`${process.env.NAME}`]: an unset variable prints as [undefined]. *)
Definition env_text (x : option jsstring) : jsstring :=
  from_option id (js "undefined") x.

Definition completion_request (env : Env) (content : jsstring) : AxiosRequest :=
  axios_post (js "https://openrouter.ai/api/v1/chat/completions")
    (object [field "model" (text "mistralai/mistral-7b-instruct");
             field "messages" (JArr [system_message; user_message content]);
             field "temperature" temperature;
             field "max_tokens" max_tokens])
    JUndefined
    (object [field "Authorization" (JStr (js "Bearer " ++ env_text (OPENROUTER_API_KEY env)));
             field "Content-Type" (text "application/json");
             field "HTTP-Referer" (JStr (env_or (HTTP_REFERER env) "http://localhost:3000"));
             field "X-Title" (text "ai-newspost-generator")]).

(** [response.data.choices[0].message.content.trim()] *)
Definition first_choice_text (response_data : JsVal) : Completion jsstring :=
  choices ← get_prop response_data (js "choices");
  choice ← get_index choices 0;
  message ← get_prop choice (js "message");
  content ← get_prop message (js "content");
  call_trim content.

Definition generate_failed (c : Caught) : Response :=
  Json 500 (object [
    field "error" (text "Failed to generate post");
    field "details" (js_or (error_response_data_prop c (js "error"))
                           (text "AI service unavailable"))]).

Definition generate_post (env : Env) (body : JsVal) : Handler Outcome :=
  (* const { articles } = req.body *)
  match get_prop body (js "articles") with
  | Throw e => Done (Uncaught e)
  | Normal articles =>
      if negb (truthy articles) || negb (isArray articles)
         || length_is_zero articles then
        reply (Json 400 (object [field "error" (text "Articles required")]))
      else
        match prompt_content articles with
        | Throw e => Done (Uncaught e)
        | Normal content =>
            (* try *)
            Await (completion_request env content) (fun response =>
              match response with
              | Rejected d => reply (generate_failed (AxiosError d))
              | Fulfilled response_data =>
                  match first_choice_text response_data with
                  | Normal aiPost =>
                      reply (Json 200 (object [field "post" (JStr aiPost)]))
                  | Throw e => reply (generate_failed (Exception e))
                  end
              end)
        end
  end.

(** ** GET /auth/linkedin *)

Definition scope : JsVal := text "w_member_social".

Definition auth_linkedin (env : Env) : Outcome :=
  let clientId := env_val (LINKEDIN_CLIENT_ID env) in
  let redirectUri := env_val (LINKEDIN_REDIRECT_URI env) in
  if negb (truthy clientId) || negb (truthy redirectUri) then
    Replied (Json 500 (object [field "error" (text "LinkedIn OAuth not configured")]))
  else
    let authUrl :=
      id ← ToString clientId;
      uri ← encodeURIComponent_of redirectUri;
      sc ← encodeURIComponent_of scope;
      mret (js "https://www.linkedin.com/oauth/v2/authorization"
            ++ js "?response_type=code&client_id=" ++ id
            ++ js "&redirect_uri=" ++ uri
            ++ js "&scope=" ++ sc) in
    match authUrl with
    | Normal u => Replied (Redirect u)
    | Throw e => Uncaught e
    end.

(** ** GET /auth/linkedin/callback *)

Definition token_request (env : Env) (code : JsVal) : AxiosRequest :=
  axios_post (js "https://www.linkedin.com/oauth/v2/accessToken")
    JNull
    (object [field "grant_type" (text "authorization_code");
             field "code" code;
             field "redirect_uri" (env_val (LINKEDIN_REDIRECT_URI env));
             field "client_id" (env_val (LINKEDIN_CLIENT_ID env));
             field "client_secret" (env_val (LINKEDIN_CLIENT_SECRET env))])
    (object [field "Content-Type" (text "application/x-www-form-urlencoded")]).

(** [res.redirect(`${frontendUrl}?error=${encodeURIComponent(v)}`)] *)
Definition redirect_error (env : Env) (v : JsVal) : Completion Response :=
  enc ← encodeURIComponent_of v;
  mret (Redirect (frontendUrl env ++ js "?error=" ++ enc)).

Definition outcome_of (c : Completion Response) : Outcome :=
  match c with
  | Normal r => Replied r
  | Throw e => Uncaught e
  end.

Definition linkedin_callback (env : Env) (query : gmap jsstring JsVal)
  : Handler Outcome :=
  let code := own query (js "code") in
  let error := own query (js "error") in
  let error_description := own query (js "error_description") in
  if truthy error then
    Done (outcome_of (redirect_error env (js_or error_description error)))
  else if negb (truthy code) then
    reply (Redirect (frontendUrl env ++ js "?error=Authorization code not provided"))
  else
    (* try *)
    let failed :=
      Done (outcome_of (redirect_error env (text "LinkedIn authentication failed"))) in
    Await (token_request env code) (fun tokenRes =>
      match tokenRes with
      | Rejected _ => failed
      | Fulfilled response_data =>
          match (accessToken ← get_prop response_data (js "access_token");
                 ToString accessToken) with
          | Normal tok =>
              reply (Redirect (frontendUrl env ++ js "?linkedin_token=" ++ tok))
          | Throw _ => failed
          end
      end).

(** ** POST /linkedin/post *)

Definition ugc_post_request (token : jsstring) (content : JsVal) : AxiosRequest :=
  axios_post (js "https://api.linkedin.com/v2/ugcPosts")
    (object [
       field "author" (text "urn:li:person:me");
       field "lifecycleState" (text "PUBLISHED");
       field "specificContent" (object [
         field "com.linkedin.ugc.ShareContent" (object [
           field "shareCommentary" (object [field "text" content]);
           field "shareMediaCategory" (text "NONE")])]);
       field "visibility" (object [
         field "com.linkedin.ugc.MemberNetworkVisibility" (text "PUBLIC")])])
    JUndefined
    (object [field "Authorization" (JStr (js "Bearer " ++ token));
             field "X-Restli-Protocol-Version" (text "2.0.0");
             field "Content-Type" (text "application/json")]).

Definition publish_failed (c : Caught) : Response :=
  Json 500 (object [
    field "error" (text "Failed to post on LinkedIn");
    field "details" (js_or (error_response_data_prop c (js "message"))
                           (text "LinkedIn API error"))]).

Definition linkedin_post (body : JsVal) : Handler Outcome :=
  (* const { token, content } = req.body *)
  match (token ← get_prop body (js "token");
         content ← get_prop body (js "content");
         mret (token, content)) with
  | Throw e => Done (Uncaught e)
  | Normal (token, content) =>
      if negb (truthy token) || negb (truthy content) then
        reply (Json 400 (object [field "error" (text "Token and content required")]))
      else
        (* try *)
        match ToString token with
        | Throw e => reply (publish_failed (Exception e))
        | Normal bearer =>
            Await (ugc_post_request bearer content) (fun postResponse =>
              match postResponse with
              | Rejected d => reply (publish_failed (AxiosError d))
              | Fulfilled _ =>
                  reply (Json 200 (object [field "success" (JBool true);
                                           field "message" (text "Posted on LinkedIn!")]))
              end)
        end
  end.

End Server.

(* ===================================================================== *)
(** * Shapes of inputs *)
(* ===================================================================== *)

(** The items of a parsed feed with the channel/item structure:
    [result.rss.channel[0].item] is an array. *)
Definition feed_items (result : JsVal) : option (list JsVal) :=
  match result with
  | JObj r =>
      match r !! js "rss" with
      | Some (JObj rss) =>
          match rss !! js "channel" with
          | Some (JArr (JObj channel0 :: _)) =>
              match channel0 !! js "item" with
              | Some (JArr items) => Some items
              | _ => None
              end
          | _ => None
          end
      | _ => None
      end
  | _ => None
  end.

(** xml2js collects the children of an element by name, each name mapped to
    the non-empty array of its occurrences. *)
Definition is_values (v : option JsVal) : bool :=
  match v with
  | Some (JArr (_ :: _)) => true
  | _ => false
  end.

(** A feed item with title, link and pubDate children, and a description
    child or none. *)
Definition is_feed_item (item : JsVal) : bool :=
  match item with
  | JObj o =>
      is_values (o !! js "title") && is_values (o !! js "link")
      && is_values (o !! js "pubDate")
      && match o !! js "description" with
         | None => true
         | d => is_values d
         end
  | _ => false
  end.

(** [item.name[0]] *)
Definition first_value (item : JsVal) (name : string) : Completion JsVal :=
  values ← get_prop item (js name); get_index values 0.

(** A non-empty string. *)
Definition nonempty_text (v : JsVal) : bool :=
  match v with
  | JStr (_ :: _) => true
  | _ => false
  end.

(** An environment variable that is set to a non-empty string. *)
Definition configured (x : option jsstring) : bool :=
  match x with
  | Some (_ :: _) => true
  | _ => false
  end.

(** No white space at either end. *)
Definition no_outer_whitespace (s : jsstring) : Prop :=
  (forall c t, s = c :: t -> is_whitespace c = false)
  /\ (forall c t, s = t ++ [c] -> is_whitespace c = false).

(** A character that can stand in the value of a URL query parameter as it
    is: an unreserved one, or the percent sign of an escape. *)
Definition url_safe (c : N) : bool := is_uri_unescaped c || (c =? 0x25).

(** A 16-bit code unit. *)
Definition is_code_unit (c : N) : bool := c <? 0x10000.

(** [v == null]: [undefined] or [null], the values whose properties cannot
    be read. *)
Definition nullish (v : JsVal) : bool :=
  match v with
  | JUndefined | JNull => true
  | _ => false
  end.

(** [typeof v === "string"] *)
Definition is_string (v : JsVal) : bool :=
  match v with
  | JStr _ => true
  | _ => false
  end.

(** ** Sample inputs *)

Module Sample.

Definition NumberToString (x : spec_float) : jsstring := js "0".

Definition env0 : Env :=
  {| OPENROUTER_API_KEY := None; HTTP_REFERER := None;
     LINKEDIN_CLIENT_ID := None; LINKEDIN_CLIENT_SECRET := None;
     LINKEDIN_REDIRECT_URI := None; FRONTEND_URL := None |}.

(** A deployment with LinkedIn configured. *)
Definition env1 : Env :=
  {| OPENROUTER_API_KEY := Some (js "sk-key"); HTTP_REFERER := None;
     LINKEDIN_CLIENT_ID := Some (js "86abc");
     LINKEDIN_CLIENT_SECRET := Some (js "s3cret");
     LINKEDIN_REDIRECT_URI := Some (js "http://localhost:5000/auth/linkedin/callback");
     FRONTEND_URL := Some (js "https://app.example") |}.

(** [LINKEDIN_CLIENT_ID=] : set, to the empty string. *)
Definition env_empty_id : Env :=
  {| OPENROUTER_API_KEY := None; HTTP_REFERER := None;
     LINKEDIN_CLIENT_ID := Some [];
     LINKEDIN_CLIENT_SECRET := Some (js "s3cret");
     LINKEDIN_REDIRECT_URI := Some (js "http://localhost:5000/auth/linkedin/callback");
     FRONTEND_URL := None |}.

Definition values (s : string) : JsVal := JArr [text s].

Definition item (n : string) : JsVal :=
  object [field "title" (values n); field "link" (values "https://news.example/a");
          field "pubDate" (values "Mon, 02 Nov 2026 10:00:00 GMT");
          field "description" (values "About it")].

(** [<item><title/><link/><pubDate>...</pubDate></item>] as xml2js
    builds it: an empty element is the empty string. *)
Definition blank_item : JsVal :=
  object [field "title" (values ""); field "link" (values "");
          field "pubDate" (values "Mon, 02 Nov 2026 10:00:00 GMT")].

Definition feed (items : list JsVal) : JsVal :=
  object [field "rss" (object [
    field "channel" (JArr [object [field "title" (values "bitcoin - Google News");
                                   field "item" (JArr items)]])])].

Definition seven_items : list JsVal :=
  [item "one"; item "two"; item "three"; item "four"; item "five";
   item "six"; item "seven"].

(** A parser that knows two documents. *)
Definition parseString (d : JsVal) : ParseOutcome :=
  match d with
  | JStr [0x37] => Parsed (feed seven_items)
  | JStr [0x31] => Parsed (feed [blank_item])
  | _ => ParseError (object [field "message" (text "Unexpected end")])
  end.

(** Every outbound call answered with the same data. *)
Definition answers (d : JsVal) (rq : AxiosRequest) : AxiosResult := Fulfilled d.

Definition no_network (rq : AxiosRequest) : AxiosResult := Rejected None.

Definition query (fields : list (jsstring * JsVal)) : gmap jsstring JsVal :=
  list_to_map fields.

(** A chat completion with one choice. *)
Definition assistant_message (s : jsstring) : list (jsstring * JsVal) :=
  [field "role" (text "assistant"); field "content" (JStr s)].

Definition completion (s : jsstring) : JsVal :=
  object [field "choices" (JArr [object [field "message" (object (assistant_message s))]])].

(** Text with white space at both ends, the last a line feed. *)
Definition padded : jsstring := js "  Rates are down again." ++ [0x0A].

Definition one_article : JsVal :=
  object [field "title" (text "Rates cut"); field "description" (text "Again")].

Definition articles_body : JsVal :=
  object [field "articles" (JArr [one_article])].

(** A parser that builds the same tree from every document, and one that
    fails on every document. *)
Definition parses (result : JsVal) (d : JsVal) : ParseOutcome := Parsed result.

Definition unparsable (d : JsVal) : ParseOutcome :=
  ParseError (object [field "message" (text "Non-whitespace before first tag.")]).

(** Every outbound call rejected, with the payload the server sent or with
    none. *)
Definition rejects (d : option JsVal) (rq : AxiosRequest) : AxiosResult := Rejected d.

(** An item without a title. *)
Definition untitled_item : JsVal :=
  object [field "link" (values "https://news.example/b");
          field "pubDate" (values "Mon, 02 Nov 2026 11:00:00 GMT")].

Definition bitcoin : gmap jsstring JsVal := query [field "keyword" (text "bitcoin")].

Definition publish_body : gmap jsstring JsVal :=
  list_to_map [field "token" (text "AQX-token"); field "content" (text "Hello")].

Definition code_query : gmap jsstring JsVal := query [field "code" (text "abc")].

End Sample.

(** One step through a chain of property reads and truthiness tests. *)
Ltac js_step :=
  cbn [truthy negb get_prop get_index mbind mret Completion_bind Completion_ret
       from_option id lookup list_lookup];
  unfold own.

(* ===================================================================== *)
(** * Properties of the string operations *)
(* ===================================================================== *)

Example encode_space : encodeURIComponent (js "a b&c") = Normal (js "a%20b%26c").
Proof. reflexivity. Qed.

Example encode_euro : encodeURIComponent [0x20AC] = Normal (js "%E2%82%AC").
Proof. reflexivity. Qed.

Example encode_pair :
  encodeURIComponent [0xD83D; 0xDE00] = Normal (js "%F0%9F%98%80").
Proof. reflexivity. Qed.

Example encode_lone : encodeURIComponent [0x61; 0xD83D] = Throw URIError.
Proof. reflexivity. Qed.

Example trim_both_ends : trim (js "  hi there ") = js "hi there".
Proof. reflexivity. Qed.

Example trim_unicode : trim ([0xFEFF; 0x0A] ++ js "x" ++ [0x2028; 0x3000]) = js "x".
Proof. reflexivity. Qed.

(** An unescaped character is not a surrogate. *)
Lemma unescaped_not_surrogate c :
  is_uri_unescaped c = true ->
  is_low_surrogate c = false /\ is_high_surrogate c = false.
Proof.
  unfold is_uri_unescaped, is_low_surrogate, is_high_surrogate, in_range.
  cbn [existsb]. intros H.
  repeat (apply orb_prop in H as [H | H]);
    try apply andb_prop in H as [H1 H2];
    repeat match goal with
           | H : (_ <=? _) = true |- _ => apply N.leb_le in H
           | H : (_ =? _) = true |- _ => apply N.eqb_eq in H
           end;
    try discriminate;
    split; apply andb_false_iff;
    try (left; apply N.leb_gt; lia).
Qed.

(** Induction on strings that follows [encodeURIComponent]: one code unit
    at a time, or two for a surrogate pair. *)
Lemma string_pair_ind (P : jsstring -> Prop) :
  P [] ->
  (forall c, P [c]) ->
  (forall c rest, P rest -> (forall d rest', rest = d :: rest' -> P rest') ->
                  P (c :: rest)) ->
  forall s, P s.
Proof.
  intros Hnil Hone Hstep s.
  assert (H : P s /\ forall d rest', s = d :: rest' -> P rest').
  { induction s as [|c s [IH1 IH2]].
    - split; [exact Hnil | discriminate].
    - split.
      + apply Hstep; assumption.
      + intros d rest' E. injection E as -> ->. exact IH1. }
  exact (proj1 H).
Qed.

(** [encodeURIComponent] returns exactly on the well-formed strings. *)
Lemma encodeURIComponent_well_formed s :
  well_formed s = true <-> exists enc, encodeURIComponent s = Normal enc.
Proof.
  induction s as [|c|c rest IH IH2] using string_pair_ind.
  - split; [eexists; reflexivity | reflexivity].
  - cbn. destruct (is_uri_unescaped c) eqn:U.
    + destruct (unescaped_not_surrogate c U) as [-> ->].
      split; [eexists; reflexivity | reflexivity].
    + destruct (is_low_surrogate c); [split; [discriminate | intros [? ?]; discriminate]|].
      destruct (is_high_surrogate c); [split; [discriminate | intros [? ?]; discriminate]|].
      split; [eexists; reflexivity | reflexivity].
  - cbn [encodeURIComponent well_formed].
    destruct (is_uri_unescaped c) eqn:U.
    + destruct (unescaped_not_surrogate c U) as [-> ->].
      rewrite IH. split.
      * intros [enc ->]. eexists; reflexivity.
      * destruct (encodeURIComponent rest); [eauto | intros [? ?]; discriminate].
    + destruct (is_low_surrogate c); [split; [discriminate | intros [? ?]; discriminate]|].
      destruct (is_high_surrogate c).
      * destruct rest as [|d rest']; [split; [discriminate | intros [? ?]; discriminate]|].
        destruct (is_low_surrogate d); cbn [andb];
          [|split; [discriminate | intros [? ?]; discriminate]].
        rewrite (IH2 d rest' eq_refl). split.
        -- intros [enc ->]. eexists; reflexivity.
        -- destruct (encodeURIComponent rest'); [eauto | intros [? ?]; discriminate].
      * rewrite IH. split.
        -- intros [enc ->]. eexists; reflexivity.
        -- destruct (encodeURIComponent rest); [eauto | intros [? ?]; discriminate].
Qed.

(** ** trim *)

Lemma trimStart_head s c t : trimStart s = c :: t -> is_whitespace c = false.
Proof.
  induction s as [|a s IH]; cbn; [discriminate|].
  destruct (is_whitespace a) eqn:W; [exact IH|].
  intros E. injection E as -> _. exact W.
Qed.

(** [trimStart] drops a run of white space from the front. *)
Lemma trimStart_suffix s :
  exists pre, s = pre ++ trimStart s /\ forallb is_whitespace pre = true.
Proof.
  induction s as [|a s (pre & E & W)]; cbn.
  - exists []. split; reflexivity.
  - destruct (is_whitespace a) eqn:Wa.
    + exists (a :: pre). cbn. rewrite Wa, W. split; [congruence | reflexivity].
    + exists []. split; reflexivity.
Qed.

Lemma trimEnd_last s c t : trimEnd s = t ++ [c] -> is_whitespace c = false.
Proof.
  unfold trimEnd. intros E.
  apply (f_equal (@rev N)) in E. rewrite rev_involutive, rev_unit in E.
  exact (trimStart_head _ _ _ E).
Qed.

(** [trimEnd] drops a run of white space from the back. *)
Lemma trimEnd_prefix s :
  exists post, s = trimEnd s ++ post /\ forallb is_whitespace post = true.
Proof.
  unfold trimEnd. destruct (trimStart_suffix (rev s)) as (pre & E & W).
  exists (rev pre). split.
  - rewrite <- rev_app_distr, <- E, rev_involutive. reflexivity.
  - rewrite forallb_forall in *. intros x Hx. apply W, in_rev, Hx.
Qed.

(** The trimmed string is the input without a run of white space at each
    end, and has none at its own ends. *)
Lemma trim_spec s :
  (exists pre post, s = pre ++ trim s ++ post
                    /\ forallb is_whitespace pre = true
                    /\ forallb is_whitespace post = true)
  /\ no_outer_whitespace (trim s).
Proof.
  unfold trim.
  destruct (trimStart_suffix s) as (pre & E1 & W1).
  destruct (trimEnd_prefix (trimStart s)) as (post & E2 & W2).
  split.
  - exists pre, post. rewrite <- E2. auto.
  - split.
    + intros c t E. rewrite E in E2. cbn in E2.
      exact (trimStart_head _ _ _ E2).
    + intros c t E. exact (trimEnd_last _ _ _ E).
Qed.

(* ===================================================================== *)
(** * Properties of the handlers *)
(* ===================================================================== *)

Section Properties.

Variable NumberToString : spec_float -> jsstring.
Variable parseString : JsVal -> ParseOutcome.
Variable net : AxiosRequest -> AxiosResult.

Lemma own_None (o : gmap jsstring JsVal) name :
  o !! name = None -> own o name = JUndefined.
Proof. unfold own. intros ->. reflexivity. Qed.

Lemma own_Some (o : gmap jsstring JsVal) name v :
  o !! name = Some v -> own o name = v.
Proof. unfold own. intros ->. reflexivity. Qed.

(** ** Request validation *)

Lemma news_rejects_falsy_keyword (query : gmap jsstring JsVal) :
  truthy (own query (js "keyword")) = false ->
  run net (news NumberToString parseString query)
  = ([], Replied (Json 400 (object [field "error" (text "Keyword is required")]))).
Proof. intros H. unfold news. rewrite H. reflexivity. Qed.

Lemma linkedin_post_rejects_falsy_field (o : gmap jsstring JsVal) :
  truthy (own o (js "token")) = false \/ truthy (own o (js "content")) = false ->
  run net (linkedin_post NumberToString (JObj o))
  = ([], Replied (Json 400 (object [field "error" (text "Token and content required")]))).
Proof.
  intros H. unfold linkedin_post, get_prop.
  cbn [mbind mret Completion_bind Completion_ret].
  destruct H as [-> | ->]; [|rewrite orb_true_r]; reflexivity.
Qed.

(** C3. GET /news without the [keyword] query parameter: status 400 with
    body [{"error":"Keyword is required"}], and no outbound call. *)
Theorem news_keyword_omitted (query : gmap jsstring JsVal) :
  query !! js "keyword" = None ->
  run net (news NumberToString parseString query)
  = ([], Replied (Json 400 (object [field "error" (text "Keyword is required")]))).
Proof.
  intros H. apply news_rejects_falsy_keyword.
  rewrite (own_None _ _ H). reflexivity.
Qed.

(** Reading a property of a body that was parsed. *)
Lemma get_prop_parsed (body : JsVal) (name : jsstring) :
  nullish body = false -> get_prop body name = Normal (get_prop_opt body name).
Proof. destruct body; (discriminate || reflexivity). Qed.

(** C4, as the code has it.  POST /generate-post whose body was parsed
    ([req.body] is neither [undefined] nor [null]) and has no [articles],
    or whose [articles] is not an array, or is the empty array: status 400
    with body [{"error":"Articles required"}], and the language-model
    endpoint is not called. *)
Theorem generate_post_articles_required (env : Env) (body : JsVal) :
  nullish body = false ->
  get_prop_opt body (js "articles") = JUndefined
  \/ isArray (get_prop_opt body (js "articles")) = false
  \/ get_prop_opt body (js "articles") = JArr [] ->
  run net (generate_post NumberToString env body)
  = ([], Replied (Json 400 (object [field "error" (text "Articles required")]))).
Proof.
  intros Hb H. unfold generate_post. rewrite (get_prop_parsed _ _ Hb).
  destruct H as [-> | [H | ->]]; [reflexivity | | reflexivity].
  rewrite H, orb_true_r. reflexivity.
Qed.

(** C5, as the code has it.  POST /linkedin/post whose body was parsed
    ([req.body] is neither [undefined] nor [null]) and has no [token] or
    no [content]: status 400 with body
    [{"error":"Token and content required"}], and no outbound call. *)
Theorem linkedin_post_missing_field (body : JsVal) :
  nullish body = false ->
  get_prop_opt body (js "token") = JUndefined
  \/ get_prop_opt body (js "content") = JUndefined ->
  run net (linkedin_post NumberToString body)
  = ([], Replied (Json 400 (object [field "error" (text "Token and content required")]))).
Proof.
  intros Hb H. unfold linkedin_post. rewrite !(get_prop_parsed _ _ Hb).
  cbn [mbind mret Completion_bind Completion_ret].
  destruct H as [-> | ->]; [|rewrite orb_true_r]; reflexivity.
Qed.

(** C10. The validators treat an empty string as an absent input: GET
    /news with [keyword] the empty string, and POST /linkedin/post with
    [token] or [content] the empty string, answer 400 with the body of
    the missing-field case, as the same request without the field does,
    and issue no outbound call. *)
Theorem empty_string_as_absent :
  (forall query : gmap jsstring JsVal,
      query !! js "keyword" = Some (JStr []) ->
      run net (news NumberToString parseString query)
      = ([], Replied (Json 400 (object [field "error" (text "Keyword is required")])))
      /\ run net (news NumberToString parseString query)
         = run net (news NumberToString parseString (delete (js "keyword") query)))
  /\ (forall (o : gmap jsstring JsVal) (name : string),
         name = "token"%string \/ name = "content"%string ->
         o !! js name = Some (JStr []) ->
         run net (linkedin_post NumberToString (JObj o))
         = ([], Replied (Json 400 (object [field "error" (text "Token and content required")])))
         /\ run net (linkedin_post NumberToString (JObj o))
            = run net (linkedin_post NumberToString (JObj (delete (js name) o)))).
Proof.
  split.
  - intros query H.
    rewrite !news_rejects_falsy_keyword; [split; reflexivity | |].
    + rewrite own_None; [reflexivity | apply lookup_delete_eq].
    + rewrite (own_Some _ _ _ H). reflexivity.
  - intros o name Hname H.
    rewrite !linkedin_post_rejects_falsy_field; [split; reflexivity | |].
    + destruct Hname as [-> | ->]; [left | right];
        (rewrite own_None; [reflexivity | apply lookup_delete_eq]).
    + destruct Hname as [-> | ->]; [left | right];
        rewrite (own_Some _ _ _ H); reflexivity.
Qed.

(** ** OAuth *)

(** C6. GET /auth/linkedin/callback with neither [code] nor [error] in the
    query: a redirect to the frontend URL with the fixed query string
    [?error=Authorization code not provided]; no token exchange. *)
Theorem callback_without_code_and_error (env : Env) (query : gmap jsstring JsVal) :
  query !! js "code" = None ->
  query !! js "error" = None ->
  run net (linkedin_callback NumberToString env query)
  = ([], Replied (Redirect (frontendUrl env
                            ++ js "?error=Authorization code not provided"))).
Proof.
  intros Hc He. unfold linkedin_callback.
  rewrite (own_None _ _ Hc), (own_None _ _ He). reflexivity.
Qed.

(** C2, as the code has it.  GET /auth/linkedin/callback whose query has a
    non-empty [error]: a redirect to the frontend URL with [?error=] set
    to the URL-encoded [error_description] when that is there and
    non-empty, to the URL-encoded [error] otherwise; whether [code] is
    there plays no part, and no token exchange is attempted. *)
Theorem callback_error_redirect
    (env : Env) (query : gmap jsstring JsVal) (error : JsVal) (shown : jsstring) :
  query !! js "error" = Some error ->
  truthy error = true ->
  ToString NumberToString
    match query !! js "error_description" with
    | Some d => if truthy d then d else error
    | None => error
    end = Normal shown ->
  well_formed shown = true ->
  exists enc,
    encodeURIComponent shown = Normal enc
    /\ run net (linkedin_callback NumberToString env query)
       = ([], Replied (Redirect (frontendUrl env ++ js "?error=" ++ enc))).
Proof.
  intros He Ht Hs Hw.
  apply encodeURIComponent_well_formed in Hw as [enc Henc].
  exists enc. split; [exact Henc|].
  unfold linkedin_callback. rewrite (own_Some _ _ _ He), Ht.
  unfold redirect_error, encodeURIComponent_of, js_or, own.
  revert Hs.
  destruct (query !! js "error_description") as [d|]; cbn [from_option id truthy];
    intros ->; cbn [mbind mret Completion_bind Completion_ret];
    rewrite Henc; reflexivity.
Qed.

(** C9, as the code has it.  GET /auth/linkedin: when the client id or
    the redirect URI is unset or empty, status 500 with an error body;
    otherwise a redirect to the authorization URL with
    [response_type=code], the client id, the URL-encoded redirect URI and
    the fixed scope [w_member_social]. *)
Theorem auth_linkedin_redirect (env : Env) :
  (configured (LINKEDIN_CLIENT_ID env) = false
   \/ configured (LINKEDIN_REDIRECT_URI env) = false ->
   auth_linkedin NumberToString env
   = Replied (Json 500 (object [field "error" (text "LinkedIn OAuth not configured")])))
  /\ (forall clientId redirectUri,
         LINKEDIN_CLIENT_ID env = Some clientId ->
         LINKEDIN_REDIRECT_URI env = Some redirectUri ->
         configured (Some clientId) = true ->
         configured (Some redirectUri) = true ->
         well_formed redirectUri = true ->
         exists enc,
           encodeURIComponent redirectUri = Normal enc
           /\ auth_linkedin NumberToString env
              = Replied (Redirect (
                  js "https://www.linkedin.com/oauth/v2/authorization?response_type=code&client_id="
                  ++ clientId ++ js "&redirect_uri=" ++ enc
                  ++ js "&scope=w_member_social"))).
Proof.
  unfold auth_linkedin. split.
  - intros [H | H].
    + destruct (LINKEDIN_CLIENT_ID env) as [[|c s]|]; try discriminate; reflexivity.
    + destruct (LINKEDIN_REDIRECT_URI env) as [[|c s]|]; try discriminate;
        cbn [env_val from_option truthy negb]; rewrite orb_true_r; reflexivity.
  - intros clientId redirectUri -> -> Hid Huri Hw.
    apply encodeURIComponent_well_formed in Hw as [enc Henc].
    exists enc. split; [exact Henc|].
    destruct clientId as [|c s]; [discriminate|].
    destruct redirectUri as [|c' s']; [discriminate|].
    cbn [env_val from_option truthy negb orb].
    unfold encodeURIComponent_of.
    cbn [ToString mbind mret Completion_bind Completion_ret].
    rewrite Henc. reflexivity.
Qed.

(** ** News lookup *)

(** Mapping a function that returns on every element. *)
Lemma mapM_Normal {A B : Type} (f : A -> Completion B) (l : list A) :
  Forall (fun x => exists y, f x = Normal y) l ->
  exists ys, mapM f l = Normal ys /\ Forall2 (fun x y => f x = Normal y) l ys.
Proof.
  induction 1 as [|x l [y Hy] _ (ys & E & F)].
  - exists []. split; [reflexivity | constructor].
  - exists (y :: ys). split.
    + cbn. rewrite Hy. cbn. rewrite E. reflexivity.
    + constructor; assumption.
Qed.

(** When the mapping returns, it returned on every element, in order. *)
Lemma mapM_Normal_inv {A B : Type} (f : A -> Completion B) (l : list A) ys :
  mapM f l = Normal ys -> Forall2 (fun x y => f x = Normal y) l ys.
Proof.
  revert ys. induction l as [|x l IH]; intros ys; cbn.
  - intros [= <-]. constructor.
  - destruct (f x) as [y|e] eqn:Hy; cbn; [|discriminate].
    destruct (mapM f l) as [k|e]; cbn; [|discriminate].
    intros [= <-]. constructor; auto.
Qed.

(** An item of the xml2js shape is mapped to an Article made of the first
    values of its children. *)
Lemma article_of_feed_item (item : JsVal) :
  is_feed_item item = true ->
  exists a, article_of_item item = Normal a
            /\ first_value item "title" = Normal (title a)
            /\ first_value item "link" = Normal (link a)
            /\ first_value item "pubDate" = Normal (pubDate a).
Proof.
  destruct item as [| | | | |l|o]; try discriminate.
  unfold is_feed_item, article_of_item, first_value, get_prop, own.
  destruct (o !! js "title") as [[| | | | |[|t ts]|]|]; try discriminate.
  destruct (o !! js "link") as [[| | | | |[|k ks]|]|]; try discriminate.
  destruct (o !! js "pubDate") as [[| | | | |[|p ps]|]|]; try discriminate.
  destruct (o !! js "description") as [[| | | | |[|d ds]|]|]; try discriminate;
    intros _; eexists; repeat split.
Qed.

(** On a parsed feed with the channel/item structure the callback maps
    the first five items. *)
Lemma news_callback_feed (result : JsVal) (items : list JsVal) :
  feed_items result = Some items ->
  news_callback JNull result
  = (articles ← mapM article_of_item (take 5 items);
     Normal (Json 200 (object [field "articles" (JArr (article_json <$> articles))]))).
Proof.
  unfold feed_items, news_callback.
  destruct result as [| | | | | |r]; try discriminate.
  js_step.
  destruct (r !! js "rss") as [[| | | | | |rss]|]; try discriminate.
  js_step.
  destruct (rss !! js "channel") as [[| | | | |[|[| | | | | |channel0] more]|]|];
    try discriminate.
  js_step.
  destruct (channel0 !! js "item") as [[| | | | |found|]|]; try discriminate.
  js_step.
  intros [= ->]. reflexivity.
Qed.

(** C1, as the code has it.  GET /news with a non-empty keyword, the feed
    fetched and parsed, the parsed feed of the channel/item structure:
    status 200 with at most 5 articles, one for each of the first items
    of the feed, in feed order; the title, link and date of an article
    are the first values of the item's children, whatever they are. *)
Theorem news_first_five
    (query : gmap jsstring JsVal) (keyword : JsVal) (q : jsstring)
    (response_data result : JsVal) (items : list JsVal) :
  query !! js "keyword" = Some keyword ->
  truthy keyword = true ->
  encodeURIComponent_of NumberToString keyword = Normal q ->
  net (axios_get (js "https://news.google.com/rss/search?q=" ++ q))
  = Fulfilled response_data ->
  parseString response_data = Parsed result ->
  feed_items result = Some items ->
  forallb is_feed_item (take 5 items) = true ->
  exists articles,
    run net (news NumberToString parseString query)
    = ([axios_get (js "https://news.google.com/rss/search?q=" ++ q)],
       Replied (Json 200 (object [field "articles" (JArr (article_json <$> articles))])))
    /\ (length articles <= 5)%nat
    /\ length articles = (5 `min` length items)%nat
    /\ Forall2 (fun item a =>
                  article_of_item item = Normal a
                  /\ first_value item "title" = Normal (title a)
                  /\ first_value item "link" = Normal (link a))
               (take 5 items) articles.
Proof.
  intros Hk Ht Hq Hnet Hparse Hfeed Hitems.
  assert (Hall : Forall (fun x => exists y, article_of_item x = Normal y)
                   (take 5 items)).
  { apply Forall_forall. intros item Hin.
    destruct (article_of_feed_item item) as (a & Ha & _); [|eauto].
    rewrite forallb_forall in Hitems. apply Hitems, list_elem_of_In, Hin. }
  destruct (mapM_Normal _ _ Hall) as (articles & Hmap & Hrel).
  exists articles.
  assert (Hlen : length articles = (5 `min` length items)%nat).
  { rewrite <- (Forall2_length _ _ _ Hrel). apply length_take. }
  repeat split.
  - unfold news. rewrite (own_Some _ _ _ Hk), Ht, Hq.
    cbn [negb run]. rewrite Hnet, Hparse, (news_callback_feed _ _ Hfeed), Hmap.
    reflexivity.
  - lia.
  - exact Hlen.
  - clear -Hrel Hitems. rewrite forallb_forall in Hitems.
    revert Hrel Hitems. generalize (take 5 items) as first.
    induction 1 as [|item a first k Ha Hrel IH]; intros Hitems; constructor.
    + destruct (article_of_feed_item item) as (a' & Ha' & Ht & Hl & _).
      { apply Hitems. left. reflexivity. }
      rewrite Ha in Ha'. injection Ha' as <-. auto.
    + apply IH. intros x Hx. apply Hitems. right. exact Hx.
Qed.

(** Whatever the parsed feed is, a 200 answer of the callback carries the
    articles of at most five items. *)
Lemma news_callback_at_most_five (err result b : JsVal) :
  news_callback err result = Normal (Json 200 b) ->
  exists articles,
    b = object [field "articles" (JArr (article_json <$> articles))]
    /\ (length articles <= 5)%nat.
Proof.
  unfold news_callback.
  destruct (truthy err); [discriminate|].
  destruct (get_prop result (js "rss")) as [rss|]; [|discriminate].
  cbn [mbind Completion_bind].
  destruct (truthy rss); [|discriminate]. cbn [negb].
  destruct (get_prop rss (js "channel")) as [channel|]; [|discriminate].
  cbn [mbind Completion_bind].
  destruct (truthy channel); [|discriminate]. cbn [negb].
  destruct (get_index channel 0) as [channel0|]; [|discriminate].
  cbn [mbind Completion_bind].
  destruct (truthy channel0); [|discriminate]. cbn [negb].
  destruct (get_prop channel0 (js "item")) as [item|]; [|discriminate].
  cbn [mbind Completion_bind].
  destruct (truthy item); [|discriminate]. cbn [negb].
  destruct item as [| | | |s|l|o]; try discriminate.
  cbn [call_slice_0_5 call_map mbind Completion_bind].
  destruct (mapM article_of_item (take 5 l)) as [articles|] eqn:E; [|discriminate].
  intros [= <-]. exists articles. split; [reflexivity|].
  rewrite <- (Forall2_length _ _ _ (mapM_Normal_inv _ _ _ E)), length_take. lia.
Qed.

(** GET /news never answers 200 with more than five articles. *)
Lemma news_at_most_five (query : gmap jsstring JsVal) calls (b : JsVal) :
  run net (news NumberToString parseString query) = (calls, Replied (Json 200 b)) ->
  exists articles,
    b = object [field "articles" (JArr (article_json <$> articles))]
    /\ (length articles <= 5)%nat.
Proof.
  unfold news.
  destruct (negb (truthy (own query (js "keyword")))); [discriminate|].
  destruct (encodeURIComponent_of NumberToString (own query (js "keyword")))
    as [q|]; [|discriminate].
  cbn [run].
  destruct (net (axios_get (js "https://news.google.com/rss/search?q=" ++ q)))
    as [d|]; [|discriminate].
  destruct (parseString d) as [err|result].
  - destruct (news_callback err JUndefined) as [[status b'|]|] eqn:E; try discriminate.
    intros [= _ -> ->]. exact (news_callback_at_most_five _ _ _ E).
  - destruct (news_callback JNull result) as [[status b'|]|] eqn:E; try discriminate.
    intros [= _ -> ->]. exact (news_callback_at_most_five _ _ _ E).
Qed.

(** C8. A feed item that GET /news maps to an Article is an object; when
    it has no [description] child the Article's description is the
    placeholder ["No description available"], and when it has
    [description] children the description is the first of them. *)
Theorem article_description (item : JsVal) (a : Article) :
  article_of_item item = Normal a ->
  exists o, item = JObj o
    /\ (o !! js "description" = None ->
        description a = text "No description available")
    /\ (forall d ds, o !! js "description" = Some (JArr (d :: ds)) ->
                     description a = d).
Proof.
  unfold article_of_item.
  destruct item as [| | | | |l|o]; try discriminate.
  intros H. exists o. split; [reflexivity|].
  cbn [get_prop mbind Completion_bind] in H.
  destruct (get_index (own o (js "title")) 0); [|discriminate].
  cbn [mbind Completion_bind] in H.
  destruct (get_index (own o (js "link")) 0); [|discriminate].
  cbn [mbind Completion_bind] in H.
  destruct (get_index (own o (js "pubDate")) 0); [|discriminate].
  cbn [mbind Completion_bind] in H.
  unfold own in H at 1 2.
  split.
  - intros Hd. rewrite Hd in H. cbn in H. injection H as <-. reflexivity.
  - intros d ds Hd. rewrite Hd in H. cbn in H. injection H as <-. reflexivity.
Qed.

(** ** Post drafting *)

(** The text of the first choice, trimmed, when the upstream response has
    one. *)
Lemma first_choice_text_trim
    (od choice message : gmap jsstring JsVal) (more : list JsVal) (s : jsstring) :
  od !! js "choices" = Some (JArr (JObj choice :: more)) ->
  choice !! js "message" = Some (JObj message) ->
  message !! js "content" = Some (JStr s) ->
  first_choice_text (JObj od) = Normal (trim s).
Proof.
  intros H1 H2 H3. unfold first_choice_text.
  js_step. rewrite H1. js_step. rewrite H2. js_step. rewrite H3.
  reflexivity.
Qed.

(** The text that [first_choice_text] returns is a trimmed string. *)
Lemma first_choice_text_inv (response_data : JsVal) (p : jsstring) :
  first_choice_text response_data = Normal p -> exists s, p = trim s.
Proof.
  unfold first_choice_text.
  destruct (get_prop response_data (js "choices")) as [choices|]; [|discriminate].
  cbn [mbind Completion_bind].
  destruct (get_index choices 0) as [choice|]; [|discriminate].
  cbn [mbind Completion_bind].
  destruct (get_prop choice (js "message")) as [message|]; [|discriminate].
  cbn [mbind Completion_bind].
  destruct (get_prop message (js "content")) as [[| | | |s| |]|]; try discriminate.
  intros [= <-]. exists s. reflexivity.
Qed.

(** C7. POST /generate-post with a non-empty array of articles, the
    upstream call fulfilled with a response whose first choice has a
    message with text: status 200 with [post] the trimmed text, which has
    no white space at its start or at its end. *)
Theorem generate_post_trimmed
    (env : Env) (o : gmap jsstring JsVal) (a : JsVal) (rest : list JsVal)
    (content : jsstring) (od choice message : gmap jsstring JsVal)
    (more : list JsVal) (s : jsstring) :
  o !! js "articles" = Some (JArr (a :: rest)) ->
  prompt_content NumberToString (JArr (a :: rest)) = Normal content ->
  net (completion_request env content) = Fulfilled (JObj od) ->
  od !! js "choices" = Some (JArr (JObj choice :: more)) ->
  choice !! js "message" = Some (JObj message) ->
  message !! js "content" = Some (JStr s) ->
  run net (generate_post NumberToString env (JObj o))
  = ([completion_request env content],
     Replied (Json 200 (object [field "post" (JStr (trim s))])))
  /\ no_outer_whitespace (trim s).
Proof.
  intros Ha Hp Hnet H1 H2 H3. split; [|apply trim_spec].
  unfold generate_post. js_step. rewrite Ha.
  cbn [from_option id truthy isArray length_is_zero negb orb].
  rewrite Hp. cbn [run]. rewrite Hnet.
  rewrite (first_choice_text_trim _ _ _ _ _ H1 H2 H3). reflexivity.
Qed.

(** Whenever POST /generate-post answers 200, the body is [{post}] with a
    trimmed text. *)
Lemma generate_post_success_inv (env : Env) (body b : JsVal) calls :
  run net (generate_post NumberToString env body) = (calls, Replied (Json 200 b)) ->
  exists s, b = object [field "post" (JStr (trim s))]
            /\ no_outer_whitespace (trim s).
Proof.
  unfold generate_post.
  destruct (get_prop body (js "articles")) as [articles|]; [|discriminate].
  destruct (negb (truthy articles) || negb (isArray articles)
            || length_is_zero articles); [discriminate|].
  destruct (prompt_content NumberToString articles) as [content|]; [|discriminate].
  cbn [run].
  destruct (net (completion_request env content)) as [d|d]; [|discriminate].
  destruct (first_choice_text d) as [p|] eqn:E; [|discriminate].
  intros [= _ <-].
  destruct (first_choice_text_inv _ _ E) as [s ->].
  exists s. split; [reflexivity | apply trim_spec].
Qed.

End Properties.

(* ===================================================================== *)
(** * The properties at sample requests *)
(* ===================================================================== *)

Import Sample.

(** [/news] with no query at all. *)
Lemma news_keyword_omitted_witness :
  (∅ : gmap jsstring JsVal) !! js "keyword" = None
  /\ run no_network (news NumberToString parseString ∅)
     = ([], Replied (Json 400 (object [field "error" (text "Keyword is required")]))).
Proof.
  split; [reflexivity|].
  apply (news_keyword_omitted NumberToString parseString no_network ∅).
  reflexivity.
Defined.

(** [/generate-post] with [{"articles":[]}], with [{"articles":"news"}],
    with [{}] and with an empty JSON array as body. *)
Lemma generate_post_articles_required_witness :
  let bad_request :=
    ([] : list AxiosRequest,
     Replied (Json 400 (object [field "error" (text "Articles required")]))) in
  run no_network
    (generate_post NumberToString env1 (object [field "articles" (JArr [])]))
  = bad_request
  /\ run no_network
       (generate_post NumberToString env1 (object [field "articles" (text "news")]))
     = bad_request
  /\ run no_network (generate_post NumberToString env1 (object [])) = bad_request
  /\ run no_network (generate_post NumberToString env1 (JArr [])) = bad_request.
Proof.
  repeat apply conj.
  - apply (generate_post_articles_required NumberToString no_network env1
             (object [field "articles" (JArr [])])); [reflexivity|].
    right. right. reflexivity.
  - apply (generate_post_articles_required NumberToString no_network env1
             (object [field "articles" (text "news")])); [reflexivity|].
    right. left. reflexivity.
  - apply (generate_post_articles_required NumberToString no_network env1
             (object [])); [reflexivity|].
    left. reflexivity.
  - apply (generate_post_articles_required NumberToString no_network env1
             (JArr [])); [reflexivity|].
    left. reflexivity.
Defined.

(** C4 as stated fails: a request without a parsed body ([req.body] is
    [undefined]) has no [articles], yet the destructuring of line 67, which
    is outside the [try] block, throws and no 400 is sent. *)
Lemma generate_post_no_body_counterexample :
  get_prop_opt JUndefined (js "articles") = JUndefined
  /\ run no_network (generate_post NumberToString env1 JUndefined)
     = ([], Uncaught TypeError).
Proof. split; reflexivity. Qed.

(** [/linkedin/post] with [{"content":"Hello"}] and with
    [{"token":"AQX-token"}]. *)
Lemma linkedin_post_missing_field_witness :
  let bad_request :=
    ([] : list AxiosRequest,
     Replied (Json 400 (object [field "error" (text "Token and content required")]))) in
  run no_network
    (linkedin_post NumberToString (object [field "content" (text "Hello")]))
  = bad_request
  /\ run no_network
       (linkedin_post NumberToString (object [field "token" (text "AQX-token")]))
     = bad_request.
Proof.
  apply conj.
  - apply (linkedin_post_missing_field NumberToString no_network
             (object [field "content" (text "Hello")])); [reflexivity|].
    left. reflexivity.
  - apply (linkedin_post_missing_field NumberToString no_network
             (object [field "token" (text "AQX-token")])); [reflexivity|].
    right. reflexivity.
Defined.

(** C5 as stated fails: a request without a parsed body ([req.body] is
    [undefined]) has neither [token] nor [content], yet the destructuring
    of line 206, which is outside the [try] block, throws and no 400 is
    sent. *)
Lemma linkedin_post_no_body_counterexample :
  get_prop_opt JUndefined (js "token") = JUndefined
  /\ get_prop_opt JUndefined (js "content") = JUndefined
  /\ run no_network (linkedin_post NumberToString JUndefined)
     = ([], Uncaught TypeError).
Proof. repeat split. Qed.

(** [/news?keyword=] and [/linkedin/post] with [{"token":"","content":"Hello"}]. *)
Lemma empty_string_as_absent_witness :
  run no_network (news NumberToString parseString (query [field "keyword" (JStr [])]))
  = ([], Replied (Json 400 (object [field "error" (text "Keyword is required")])))
  /\ run no_network
       (linkedin_post NumberToString
          (object [field "token" (JStr []); field "content" (text "Hello")]))
     = ([], Replied (Json 400 (object [field "error" (text "Token and content required")]))).
Proof.
  destruct (empty_string_as_absent NumberToString parseString no_network) as [Hn Hp].
  split.
  - apply (Hn (query [field "keyword" (JStr [])])). reflexivity.
  - apply (Hp (list_to_map [field "token" (JStr []); field "content" (text "Hello")])
              "token"%string); [left|]; reflexivity.
Defined.

(** The callback with an empty query. *)
Lemma callback_without_code_and_error_witness :
  run no_network (linkedin_callback NumberToString env1 ∅)
  = ([], Replied (Redirect (js "https://app.example?error=Authorization code not provided"))).
Proof.
  apply (callback_without_code_and_error NumberToString no_network env1 ∅);
    reflexivity.
Defined.

(** The callback with
    [?error=access_denied&error_description=The+user+denied&code=abc]. *)
Lemma callback_error_redirect_witness :
  exists enc,
    encodeURIComponent (js "The user denied") = Normal enc
    /\ run no_network
         (linkedin_callback NumberToString env1
            (query [field "error" (text "access_denied");
                    field "error_description" (text "The user denied");
                    field "code" (text "abc")]))
       = ([], Replied (Redirect (js "https://app.example?error=" ++ enc))).
Proof.
  apply (callback_error_redirect NumberToString no_network env1
           (query [field "error" (text "access_denied");
                   field "error_description" (text "The user denied");
                   field "code" (text "abc")])
           (text "access_denied") (js "The user denied"));
    reflexivity.
Defined.

Example callback_error_redirect_location :
  run no_network
    (linkedin_callback NumberToString env1
       (query [field "error" (text "access_denied");
               field "error_description" (text "The user denied");
               field "code" (text "abc")]))
  = ([], Replied (Redirect (js "https://app.example?error=The%20user%20denied"))).
Proof. reflexivity. Qed.

(** C2 as stated fails: with [?error=&code=abc] the query contains an
    [error] parameter, yet the handler exchanges the code for a token and
    redirects with the token. *)
Lemma callback_empty_error_counterexample :
  let q := query [field "error" (JStr []); field "code" (text "abc")] in
  q !! js "error" = Some (JStr [])
  /\ run (answers (object [field "access_token" (text "tok")]))
         (linkedin_callback NumberToString env1 q)
     = ([token_request env1 (text "abc")],
        Replied (Redirect (js "https://app.example?linkedin_token=tok"))).
Proof. split; reflexivity. Qed.

(** A configured deployment, and one with nothing set. *)
Lemma auth_linkedin_redirect_witness :
  auth_linkedin NumberToString env0
  = Replied (Json 500 (object [field "error" (text "LinkedIn OAuth not configured")]))
  /\ exists enc,
       encodeURIComponent (js "http://localhost:5000/auth/linkedin/callback") = Normal enc
       /\ auth_linkedin NumberToString env1
          = Replied (Redirect (
              js "https://www.linkedin.com/oauth/v2/authorization?response_type=code&client_id="
              ++ js "86abc" ++ js "&redirect_uri=" ++ enc
              ++ js "&scope=w_member_social")).
Proof.
  split.
  - apply (proj1 (auth_linkedin_redirect NumberToString env0)). left. reflexivity.
  - apply (proj2 (auth_linkedin_redirect NumberToString env1)
             (js "86abc") (js "http://localhost:5000/auth/linkedin/callback"));
      reflexivity.
Defined.

Example auth_linkedin_location :
  auth_linkedin NumberToString env1
  = Replied (Redirect (js "https://www.linkedin.com/oauth/v2/authorization?response_type=code&client_id=86abc&redirect_uri=http%3A%2F%2Flocalhost%3A5000%2Fauth%2Flinkedin%2Fcallback&scope=w_member_social")).
Proof. reflexivity. Qed.

(** C9 as stated fails: with [LINKEDIN_CLIENT_ID] set to the empty string
    both variables are set, yet the handler answers 500. *)
Lemma auth_linkedin_empty_id_counterexample :
  LINKEDIN_CLIENT_ID env_empty_id = Some []
  /\ LINKEDIN_REDIRECT_URI env_empty_id
     = Some (js "http://localhost:5000/auth/linkedin/callback")
  /\ auth_linkedin NumberToString env_empty_id
     = Replied (Json 500 (object [field "error" (text "LinkedIn OAuth not configured")])).
Proof. repeat split. Qed.

(** [/news?keyword=bitcoin] with a feed of 7 items: 5 articles, in feed
    order. *)
Lemma news_first_five_witness :
  exists articles,
    run (answers (JStr [0x37]))
        (news NumberToString parseString (query [field "keyword" (text "bitcoin")]))
    = ([axios_get (js "https://news.google.com/rss/search?q=bitcoin")],
       Replied (Json 200 (object [field "articles" (JArr (article_json <$> articles))])))
    /\ (length articles <= 5)%nat
    /\ length articles = (5 `min` length seven_items)%nat
    /\ Forall2 (fun item a =>
                  article_of_item item = Normal a
                  /\ first_value item "title" = Normal (title a)
                  /\ first_value item "link" = Normal (link a))
               (take 5 seven_items) articles.
Proof.
  apply (news_first_five NumberToString parseString (answers (JStr [0x37]))
           (query [field "keyword" (text "bitcoin")]) (text "bitcoin")
           (js "bitcoin") (JStr [0x37]) (feed seven_items) seven_items);
    reflexivity.
Defined.

Example news_seven_items :
  snd (run (answers (JStr [0x37]))
         (news NumberToString parseString (query [field "keyword" (text "bitcoin")])))
  = Replied (Json 200 (object [field "articles"
      (JArr (map (fun n => object [
          field "title" (text n); field "link" (text "https://news.example/a");
          field "pubDate" (text "Mon, 02 Nov 2026 10:00:00 GMT");
          field "description" (text "About it")])
        ["one"; "two"; "three"; "four"; "five"]%string))])).
Proof. reflexivity. Qed.

(** C1 as stated fails: a feed of the channel/item structure whose only
    item has empty [title] and [link] elements is fetched and parsed, and
    the handler returns an article whose title and link are empty. *)
Lemma news_blank_title_counterexample :
  let q := query [field "keyword" (text "bitcoin")] in
  let blank := {| title := JStr []; link := JStr [];
                  pubDate := text "Mon, 02 Nov 2026 10:00:00 GMT";
                  description := text "No description available" |} in
  q !! js "keyword" = Some (text "bitcoin")
  /\ parseString (JStr [0x31]) = Parsed (feed [blank_item])
  /\ feed_items (feed [blank_item]) = Some [blank_item]
  /\ run (answers (JStr [0x31])) (news NumberToString parseString q)
     = ([axios_get (js "https://news.google.com/rss/search?q=bitcoin")],
        Replied (Json 200 (object [field "articles" (JArr [article_json blank])])))
  /\ nonempty_text (title blank) = false
  /\ nonempty_text (link blank) = false.
Proof. repeat split. Qed.

(** An item with a description and one without. *)
Lemma article_description_witness :
  (exists o,
      item "one" = JObj o
      /\ (o !! js "description" = None ->
          text "About it" = text "No description available")
      /\ (forall d ds, o !! js "description" = Some (JArr (d :: ds)) ->
                       text "About it" = d))
  /\ (exists o,
         blank_item = JObj o
         /\ (o !! js "description" = None ->
             text "No description available" = text "No description available")
         /\ (forall d ds, o !! js "description" = Some (JArr (d :: ds)) ->
                          text "No description available" = d)).
Proof.
  split.
  - apply (article_description (item "one")
             {| title := text "one"; link := text "https://news.example/a";
                pubDate := text "Mon, 02 Nov 2026 10:00:00 GMT";
                description := text "About it" |}).
    reflexivity.
  - apply (article_description blank_item
             {| title := JStr []; link := JStr [];
                pubDate := text "Mon, 02 Nov 2026 10:00:00 GMT";
                description := text "No description available" |}).
    reflexivity.
Defined.

Example article_without_description :
  article_of_item blank_item
  = Normal {| title := JStr []; link := JStr [];
              pubDate := text "Mon, 02 Nov 2026 10:00:00 GMT";
              description := text "No description available" |}.
Proof. reflexivity. Qed.

(** [/generate-post] with one article; the model answers with padded
    text. *)
Lemma generate_post_trimmed_witness :
  exists content,
    prompt_content NumberToString (JArr [one_article]) = Normal content
    /\ run (answers (completion padded)) (generate_post NumberToString env1 articles_body)
       = ([completion_request env1 content],
          Replied (Json 200 (object [field "post" (text "Rates are down again.")])))
    /\ no_outer_whitespace (js "Rates are down again.").
Proof.
  exists (js "(1) Rates cut - Again").
  split; [reflexivity|].
  apply (generate_post_trimmed NumberToString (answers (completion padded)) env1
           (list_to_map [field "articles" (JArr [one_article])])
           one_article [] (js "(1) Rates cut - Again")
           (list_to_map [field "choices"
                           (JArr [object [field "message" (object (assistant_message padded))]])])
           (list_to_map [field "message" (object (assistant_message padded))])
           (list_to_map (assistant_message padded))
           [] padded);
    reflexivity.
Defined.

(* ===================================================================== *)
(** * Further properties of the string operations *)
(* ===================================================================== *)

Lemma lor_lt_256 a b : a < 256 -> b < 256 -> N.lor a b < 256.
Proof.
  intros Ha Hb.
  destruct (N.eq_dec a 0) as [-> | Na]; [rewrite N.lor_0_l; exact Hb|].
  destruct (N.eq_dec b 0) as [-> | Nb]; [rewrite N.lor_0_r; exact Ha|].
  change 256 with (2 ^ 8) in *.
  apply N.log2_lt_pow2.
  - assert (N.lor a b <> 0) by (rewrite N.lor_eq_0_iff; tauto). lia.
  - rewrite N.log2_lor.
    apply N.log2_lt_pow2 in Ha; [|lia]. apply N.log2_lt_pow2 in Hb; [|lia]. lia.
Qed.

Lemma low_six_bits x : N.land x 0x3F < 256.
Proof. pose proof (N.land_le_r x 0x3F). lia. Qed.

Lemma shiftr_lt a n q : a < 2 ^ n * q -> N.shiftr a n < q.
Proof. intros H. rewrite N.shiftr_div_pow2. apply N.Div0.div_lt_upper_bound, H. Qed.

(** The UTF-8 octets of a code point are octets. *)
Lemma utf8_octets_bound cp :
  cp < 0x110000 -> Forall (fun b => b < 256) (utf8_octets cp).
Proof.
  intros H. unfold utf8_octets.
  destruct (cp <? 0x80) eqn:E1; [apply N.ltb_lt in E1; repeat constructor; lia|].
  destruct (cp <? 0x800) eqn:E2.
  { apply N.ltb_lt in E2. repeat constructor; apply lor_lt_256;
      try apply low_six_bits; try lia.
    assert (N.shiftr cp 6 < 32) by (apply shiftr_lt; cbn; lia). lia. }
  destruct (cp <? 0x10000) eqn:E3.
  { apply N.ltb_lt in E3. repeat constructor; apply lor_lt_256;
      try apply low_six_bits; try lia.
    assert (N.shiftr cp 12 < 16) by (apply shiftr_lt; cbn; lia). lia. }
  repeat constructor; apply lor_lt_256; try apply low_six_bits; try lia.
  assert (N.shiftr cp 18 < 5) by (apply shiftr_lt; cbn; lia). lia.
Qed.

Lemma hex_digit_unescaped d : d < 16 -> is_uri_unescaped (hex_digit d) = true.
Proof.
  intros H.
  assert (E : d = 0 \/ d = 1 \/ d = 2 \/ d = 3 \/ d = 4 \/ d = 5 \/ d = 6 \/ d = 7
              \/ d = 8 \/ d = 9 \/ d = 10 \/ d = 11 \/ d = 12 \/ d = 13 \/ d = 14
              \/ d = 15) by lia.
  repeat (destruct E as [-> | E]; [reflexivity|]). subst. reflexivity.
Qed.

Lemma percent_octet_safe b : b < 256 -> forallb url_safe (percent_octet b) = true.
Proof.
  intros H. unfold percent_octet, url_safe. cbn [forallb].
  rewrite !hex_digit_unescaped; [reflexivity | |].
  - change 0xF with (N.ones 4). rewrite N.land_ones. apply N.mod_lt. discriminate.
  - apply shiftr_lt. cbn. lia.
Qed.

Lemma percent_encode_safe cp :
  cp < 0x110000 -> forallb url_safe (percent_encode cp) = true.
Proof.
  intros H. unfold percent_encode.
  induction (utf8_octets_bound cp H) as [|b l Hb _ IH]; [reflexivity|].
  cbn [map concat]. rewrite forallb_app, (percent_octet_safe b Hb), IH.
  reflexivity.
Qed.

Lemma surrogate_pair_bound hi lo :
  is_high_surrogate hi = true -> is_low_surrogate lo = true ->
  surrogate_pair hi lo < 0x110000.
Proof.
  unfold is_high_surrogate, is_low_surrogate, in_range, surrogate_pair.
  intros [H1 H2]%andb_prop [H3 H4]%andb_prop.
  apply N.leb_le in H1, H2, H3, H4. lia.
Qed.

(** What [encodeURIComponent] returns consists of unreserved characters and
    percent escapes only. *)
Lemma encodeURIComponent_safe s :
  forallb is_code_unit s = true ->
  forall enc, encodeURIComponent s = Normal enc -> forallb url_safe enc = true.
Proof.
  induction s as [|c|c rest IH IH2] using string_pair_ind; intros Hs enc.
  - intros [= <-]. reflexivity.
  - cbn in Hs. rewrite andb_true_r in Hs. apply N.ltb_lt in Hs. cbn.
    destruct (is_uri_unescaped c) eqn:U.
    + intros [= <-]. unfold url_safe. cbn. rewrite U. reflexivity.
    + destruct (is_low_surrogate c); [discriminate|].
      destruct (is_high_surrogate c); [discriminate|].
      intros [= <-]. rewrite app_nil_r. apply percent_encode_safe. lia.
  - cbn [forallb] in Hs. apply andb_prop in Hs as [Hc Hrest].
    apply N.ltb_lt in Hc. cbn [encodeURIComponent].
    destruct (is_uri_unescaped c) eqn:U.
    + destruct (encodeURIComponent rest) as [r|]; [|discriminate].
      intros [= <-]. cbn [forallb]. unfold url_safe at 1. rewrite U.
      exact (IH Hrest r eq_refl).
    + destruct (is_low_surrogate c); [discriminate|].
      destruct (is_high_surrogate c) eqn:Hi.
      * destruct rest as [|d rest']; [discriminate|].
        destruct (is_low_surrogate d) eqn:Lo; [|discriminate].
        cbn [forallb] in Hrest. apply andb_prop in Hrest as [_ Hrest'].
        destruct (encodeURIComponent rest') as [r|] eqn:E; [|discriminate].
        intros [= <-]. rewrite forallb_app.
        rewrite (percent_encode_safe _ (surrogate_pair_bound _ _ Hi Lo)).
        exact (IH2 d rest' eq_refl Hrest' r E).
      * destruct (encodeURIComponent rest) as [r|]; [|discriminate].
        intros [= <-]. rewrite forallb_app, percent_encode_safe by lia.
        exact (IH Hrest r eq_refl).
Qed.

(** White space only trims to the empty string. *)
Lemma trimStart_whitespace s : forallb is_whitespace s = true -> trimStart s = [].
Proof.
  induction s as [|c s IH]; cbn; [reflexivity|].
  intros [-> H]%andb_prop. exact (IH H).
Qed.

Lemma trim_whitespace s : forallb is_whitespace s = true -> trim s = [].
Proof. intros H. unfold trim. rewrite (trimStart_whitespace s H). reflexivity. Qed.

(** A mapping that throws on an element throws. *)
Lemma mapM_Throw {A B : Type} (f : A -> Completion B) (l : list A) x e :
  In x l -> f x = Throw e -> exists e', mapM f l = Throw e'.
Proof.
  induction l as [|y l IH]; [intros []|].
  intros [-> | Hin] Hx; cbn.
  - rewrite Hx. eauto.
  - destruct (f y); cbn; [|eauto].
    destruct (IH Hin Hx) as [e' ->]. eauto.
Qed.

(* ===================================================================== *)
(** * Further properties of the handlers *)
(* ===================================================================== *)

Section Behaviour.

Variable NumberToString : spec_float -> jsstring.
Variable parseString : JsVal -> ParseOutcome.
Variable net : AxiosRequest -> AxiosResult.

(** ** News lookup *)

(** Once the feed is fetched, the run is the one call and what the callback
    makes of the parse. *)
Lemma news_fetched (query : gmap jsstring JsVal) (q : jsstring) (d : JsVal) :
  truthy (own query (js "keyword")) = true ->
  encodeURIComponent_of NumberToString (own query (js "keyword")) = Normal q ->
  net (axios_get (js "https://news.google.com/rss/search?q=" ++ q)) = Fulfilled d ->
  run net (news NumberToString parseString query)
  = ([axios_get (js "https://news.google.com/rss/search?q=" ++ q)],
     match match parseString d with
           | ParseError err => news_callback err JUndefined
           | Parsed result => news_callback JNull result
           end with
     | Normal r => Replied r
     | Throw _ => Replied fetch_failed
     end).
Proof.
  intros Ht Hq Hnet. unfold news. rewrite Ht, Hq. cbn [negb run]. rewrite Hnet.
  destruct (match parseString d with
            | ParseError err => news_callback err JUndefined
            | Parsed result => news_callback JNull result
            end); reflexivity.
Qed.

(** X1. GET /news whose upstream request fails (network error or a status
    outside 2xx): status 500 with body [{"error":"Failed to fetch news"}],
    after the one outbound call. *)
Theorem news_fetch_failed
    (query : gmap jsstring JsVal) (q : jsstring) (d : option JsVal) :
  truthy (own query (js "keyword")) = true ->
  encodeURIComponent_of NumberToString (own query (js "keyword")) = Normal q ->
  net (axios_get (js "https://news.google.com/rss/search?q=" ++ q)) = Rejected d ->
  run net (news NumberToString parseString query)
  = ([axios_get (js "https://news.google.com/rss/search?q=" ++ q)],
     Replied (Json 500 (object [field "error" (text "Failed to fetch news")]))).
Proof.
  intros Ht Hq Hnet. unfold news. rewrite Ht, Hq. cbn [negb run]. rewrite Hnet.
  reflexivity.
Qed.

(** X2. GET /news whose feed is fetched but does not parse: status 500 with
    body [{"error":"Failed to parse RSS feed"}]. *)
Theorem news_parse_failed
    (query : gmap jsstring JsVal) (q : jsstring) (d err : JsVal) :
  truthy (own query (js "keyword")) = true ->
  encodeURIComponent_of NumberToString (own query (js "keyword")) = Normal q ->
  net (axios_get (js "https://news.google.com/rss/search?q=" ++ q)) = Fulfilled d ->
  parseString d = ParseError err ->
  truthy err = true ->
  run net (news NumberToString parseString query)
  = ([axios_get (js "https://news.google.com/rss/search?q=" ++ q)],
     Replied (Json 500 (object [field "error" (text "Failed to parse RSS feed")]))).
Proof.
  intros Ht Hq Hnet Hp He. rewrite (news_fetched _ _ _ Ht Hq Hnet), Hp.
  unfold news_callback. rewrite He. reflexivity.
Qed.

(** X3. GET /news whose parsed feed has no [rss] element, or an [rss]
    without [channel], or an empty list of channels, or a first channel
    without [item]: status 404 with body
    [{"error":"No articles found for this keyword"}]. *)
Theorem news_not_found
    (query : gmap jsstring JsVal) (q : jsstring) (d : JsVal)
    (r : gmap jsstring JsVal) :
  truthy (own query (js "keyword")) = true ->
  encodeURIComponent_of NumberToString (own query (js "keyword")) = Normal q ->
  net (axios_get (js "https://news.google.com/rss/search?q=" ++ q)) = Fulfilled d ->
  parseString d = Parsed (JObj r) ->
  r !! js "rss" = None
  \/ (exists rss, r !! js "rss" = Some (JObj rss)
        /\ (rss !! js "channel" = None
            \/ rss !! js "channel" = Some (JArr [])
            \/ exists channel0 more,
                 rss !! js "channel" = Some (JArr (JObj channel0 :: more))
                 /\ channel0 !! js "item" = None)) ->
  run net (news NumberToString parseString query)
  = ([axios_get (js "https://news.google.com/rss/search?q=" ++ q)],
     Replied (Json 404 (object [field "error" (text "No articles found for this keyword")]))).
Proof.
  intros Ht Hq Hnet Hp H. rewrite (news_fetched _ _ _ Ht Hq Hnet), Hp.
  unfold news_callback. js_step.
  destruct H as [H | (rss & H & H')]; rewrite H; js_step; [reflexivity|].
  destruct H' as [H' | [H' | (channel0 & more & H' & Hi)]]; rewrite H'; js_step;
    try reflexivity.
  rewrite Hi. reflexivity.
Qed.

(** X4. GET /news never answers 200 with more than five articles, whatever
    the query, the network and the parser give. *)
Theorem news_never_more_than_five
    (query : gmap jsstring JsVal) (calls : list AxiosRequest) (b : JsVal) :
  run net (news NumberToString parseString query) = (calls, Replied (Json 200 b)) ->
  exists articles,
    b = object [field "articles" (JArr (article_json <$> articles))]
    /\ (length articles <= 5)%nat.
Proof. apply news_at_most_five. Qed.

(** X5. The answer to a parsed feed depends on its first five items only:
    two feeds that agree on them get the same answer from the callback. *)
Theorem news_callback_first_five_only (result1 result2 : JsVal) (items1 items2 : list JsVal) :
  feed_items result1 = Some items1 ->
  feed_items result2 = Some items2 ->
  take 5 items1 = take 5 items2 ->
  news_callback JNull result1 = news_callback JNull result2.
Proof.
  intros H1 H2 E.
  rewrite (news_callback_feed _ _ H1), (news_callback_feed _ _ H2), E.
  reflexivity.
Qed.

(** X6. When one of the first five items of the feed has no [title], no
    [link] or no [pubDate] child, no article is sent: reading the first
    value of the missing child throws inside the callback, the [catch]
    block of the handler takes the exception, and the answer is status 500
    with body [{"error":"Failed to fetch news"}]. *)
Theorem news_item_without_child
    (query : gmap jsstring JsVal) (q : jsstring) (d result : JsVal)
    (items : list JsVal) (o : gmap jsstring JsVal) (name : string) :
  truthy (own query (js "keyword")) = true ->
  encodeURIComponent_of NumberToString (own query (js "keyword")) = Normal q ->
  net (axios_get (js "https://news.google.com/rss/search?q=" ++ q)) = Fulfilled d ->
  parseString d = Parsed result ->
  feed_items result = Some items ->
  In (JObj o) (take 5 items) ->
  name = "title"%string \/ name = "link"%string \/ name = "pubDate"%string ->
  o !! js name = None ->
  run net (news NumberToString parseString query)
  = ([axios_get (js "https://news.google.com/rss/search?q=" ++ q)],
     Replied (Json 500 (object [field "error" (text "Failed to fetch news")]))).
Proof.
  intros Ht Hq Hnet Hp Hf Hin Hname Ho.
  rewrite (news_fetched _ _ _ Ht Hq Hnet), Hp, (news_callback_feed _ _ Hf).
  assert (Hthrow : exists e, article_of_item (JObj o) = Throw e).
  { unfold article_of_item. js_step.
    destruct Hname as [-> | [-> | ->]].
    - rewrite Ho. eexists. reflexivity.
    - destruct (get_index (default JUndefined (o !! js "title")) 0); js_step;
        [|eexists; reflexivity].
      rewrite Ho. eexists. reflexivity.
    - destruct (get_index (default JUndefined (o !! js "title")) 0); js_step;
        [|eexists; reflexivity].
      destruct (get_index (default JUndefined (o !! js "link")) 0); js_step;
        [|eexists; reflexivity].
      rewrite Ho. eexists. reflexivity. }
  destruct Hthrow as [e0 Hthrow].
  destruct (mapM_Throw _ _ _ _ Hin Hthrow) as [e He].
  rewrite He. reflexivity.
Qed.

(** X7. The keyword cannot reach outside its parameter: GET /news with a
    string keyword issues no call, or one GET to the news search URL whose
    [q] value consists of unreserved characters and percent escapes. *)
Theorem news_call_url_safe (query : gmap jsstring JsVal) (k : jsstring) :
  query !! js "keyword" = Some (JStr k) ->
  forallb is_code_unit k = true ->
  fst (run net (news NumberToString parseString query)) = []
  \/ exists q,
       fst (run net (news NumberToString parseString query))
       = [axios_get (js "https://news.google.com/rss/search?q=" ++ q)]
       /\ forallb url_safe q = true.
Proof.
  intros Hk Hu. unfold news. rewrite (own_Some _ _ _ Hk).
  destruct (negb (truthy (JStr k))); [left; reflexivity|].
  unfold encodeURIComponent_of. cbn [ToString mbind Completion_bind].
  destruct (encodeURIComponent k) as [q|] eqn:E; [|left; reflexivity].
  right. exists q. split; [|exact (encodeURIComponent_safe k Hu q E)].
  cbn [run].
  destruct (net (axios_get (js "https://news.google.com/rss/search?q=" ++ q)));
    [|reflexivity].
  destruct (match parseString response_data with
            | ParseError err => news_callback err JUndefined
            | Parsed result => news_callback JNull result
            end); reflexivity.
Qed.

(** ** Post drafting *)

(** With a non-empty array of articles that print, the run is the one call
    to the language model and what the handler makes of its result. *)
Lemma generate_post_called
    (env : Env) (o : gmap jsstring JsVal) (a : JsVal) (rest : list JsVal)
    (content : jsstring) :
  o !! js "articles" = Some (JArr (a :: rest)) ->
  prompt_content NumberToString (JArr (a :: rest)) = Normal content ->
  run net (generate_post NumberToString env (JObj o))
  = ([completion_request env content],
     match net (completion_request env content) with
     | Rejected d => Replied (generate_failed (AxiosError d))
     | Fulfilled response_data =>
         match first_choice_text response_data with
         | Normal aiPost => Replied (Json 200 (object [field "post" (JStr aiPost)]))
         | Throw e => Replied (generate_failed (Exception e))
         end
     end).
Proof.
  intros Ha Hp. unfold generate_post. js_step. rewrite Ha.
  cbn [from_option id truthy isArray length_is_zero negb orb].
  rewrite Hp. cbn [run].
  destruct (net (completion_request env content)) as [d|d]; [|reflexivity].
  destruct (first_choice_text d); reflexivity.
Qed.

(** X8. POST /generate-post whose upstream call is rejected: status 500
    with error ["Failed to generate post"]; the details are the [error] of
    the upstream payload when the payload is an object with a truthy
    [error], and ["AI service unavailable"] otherwise (no answer at all
    included). *)
Theorem generate_post_upstream_rejected
    (env : Env) (o : gmap jsstring JsVal) (a : JsVal) (rest : list JsVal)
    (content : jsstring) (d : option JsVal) :
  o !! js "articles" = Some (JArr (a :: rest)) ->
  prompt_content NumberToString (JArr (a :: rest)) = Normal content ->
  net (completion_request env content) = Rejected d ->
  run net (generate_post NumberToString env (JObj o))
  = ([completion_request env content],
     Replied (Json 500 (object [
       field "error" (text "Failed to generate post");
       field "details"
         match d with
         | Some (JObj payload) =>
             match payload !! js "error" with
             | Some v => if truthy v then v else text "AI service unavailable"
             | None => text "AI service unavailable"
             end
         | _ => text "AI service unavailable"
         end]))).
Proof.
  intros Ha Hp Hnet. rewrite (generate_post_called _ _ _ _ _ Ha Hp), Hnet.
  unfold generate_failed, error_response_data_prop, get_prop_opt, js_or, own.
  destruct d as [[| | | | | |payload]|]; try reflexivity.
  destruct (payload !! js "error"); reflexivity.
Qed.

(** X9. POST /generate-post whose upstream call is fulfilled with a
    response that has no [choices], or an empty [choices], or a first
    message whose [content] is not a string: status 500 with details
    ["AI service unavailable"]. *)
Theorem generate_post_unusable_response
    (env : Env) (o : gmap jsstring JsVal) (a : JsVal) (rest : list JsVal)
    (content : jsstring) (od : gmap jsstring JsVal) :
  o !! js "articles" = Some (JArr (a :: rest)) ->
  prompt_content NumberToString (JArr (a :: rest)) = Normal content ->
  net (completion_request env content) = Fulfilled (JObj od) ->
  od !! js "choices" = None
  \/ od !! js "choices" = Some (JArr [])
  \/ (exists choice more message,
         od !! js "choices" = Some (JArr (JObj choice :: more))
         /\ choice !! js "message" = Some (JObj message)
         /\ is_string (own message (js "content")) = false) ->
  run net (generate_post NumberToString env (JObj o))
  = ([completion_request env content],
     Replied (Json 500 (object [field "error" (text "Failed to generate post");
                                field "details" (text "AI service unavailable")]))).
Proof.
  intros Ha Hp Hnet H. rewrite (generate_post_called _ _ _ _ _ Ha Hp), Hnet.
  assert (E : exists e, first_choice_text (JObj od) = Throw e).
  { unfold first_choice_text. js_step.
    destruct H as [H | [H | (choice & more & message & H & Hm & Hs)]];
      rewrite H; js_step; try (eexists; reflexivity).
    rewrite Hm. js_step. unfold own in Hs.
    destruct (default JUndefined (message !! js "content")); try discriminate;
      eexists; reflexivity. }
  destruct E as [e ->]. reflexivity.
Qed.

(** X10. POST /generate-post whose upstream text is white space only still
    answers 200, with the empty string as [post]. *)
Theorem generate_post_blank_text
    (env : Env) (o : gmap jsstring JsVal) (a : JsVal) (rest : list JsVal)
    (content : jsstring) (od choice message : gmap jsstring JsVal)
    (more : list JsVal) (s : jsstring) :
  o !! js "articles" = Some (JArr (a :: rest)) ->
  prompt_content NumberToString (JArr (a :: rest)) = Normal content ->
  net (completion_request env content) = Fulfilled (JObj od) ->
  od !! js "choices" = Some (JArr (JObj choice :: more)) ->
  choice !! js "message" = Some (JObj message) ->
  message !! js "content" = Some (JStr s) ->
  forallb is_whitespace s = true ->
  run net (generate_post NumberToString env (JObj o))
  = ([completion_request env content],
     Replied (Json 200 (object [field "post" (JStr [])]))).
Proof.
  intros Ha Hp Hnet H1 H2 H3 Hw.
  rewrite (generate_post_called _ _ _ _ _ Ha Hp), Hnet.
  rewrite (first_choice_text_trim _ _ _ _ _ H1 H2 H3), (trim_whitespace s Hw).
  reflexivity.
Qed.

(** X11. POST /generate-post whose [articles] array holds a [null]: the
    prompt is assembled outside the [try] block, reading [a.title] throws,
    the exception leaves the handler; no answer is sent and the language
    model is not called. *)
Theorem generate_post_null_article
    (env : Env) (o : gmap jsstring JsVal) (articles : list JsVal) :
  o !! js "articles" = Some (JArr articles) ->
  In JNull articles ->
  exists e, run net (generate_post NumberToString env (JObj o)) = ([], Uncaught e).
Proof.
  intros Ha Hin. unfold generate_post. js_step. rewrite Ha.
  destruct articles as [|a rest]; [destruct Hin|].
  cbn [from_option id truthy isArray length_is_zero negb orb].
  assert (E : exists e, prompt_content NumberToString (JArr (a :: rest)) = Throw e).
  { apply list_elem_of_In, list_elem_of_lookup in Hin as [i Hi].
    unfold prompt_content.
    destruct (mapM_Throw (fun ia => prompt_line NumberToString (fst ia) (snd ia))
                (imap pair (a :: rest)) (i, JNull) TypeError) as [e He].
    - apply list_elem_of_In, list_elem_of_lookup. exists i.
      rewrite list_lookup_imap, Hi. reflexivity.
    - reflexivity.
    - exists e. rewrite He. reflexivity. }
  destruct E as [e ->]. exists e. reflexivity.
Qed.

(** X12. An article without [title] and [description] is not rejected: the
    language model is called, the article's line of the prompt reading
    [(1) undefined - undefined]. *)
Theorem generate_post_missing_fields
    (env : Env) (o a : gmap jsstring JsVal) :
  o !! js "articles" = Some (JArr [JObj a]) ->
  a !! js "title" = None ->
  a !! js "description" = None ->
  fst (run net (generate_post NumberToString env (JObj o)))
  = [completion_request env (js "(1) undefined - undefined")].
Proof.
  intros Ha Ht Hd.
  rewrite (generate_post_called env o (JObj a) [] (js "(1) undefined - undefined") Ha).
  - reflexivity.
  - unfold prompt_content. cbn [imap mapM fst snd]. unfold prompt_line.
    js_step. rewrite Ht, Hd. reflexivity.
Qed.

(** ** OAuth callback *)

(** Without an error and with a code, the run is the token exchange and
    what the handler makes of its result. *)
Lemma callback_exchange (env : Env) (query : gmap jsstring JsVal) :
  truthy (own query (js "error")) = false ->
  truthy (own query (js "code")) = true ->
  run net (linkedin_callback NumberToString env query)
  = ([token_request env (own query (js "code"))],
     match net (token_request env (own query (js "code"))) with
     | Rejected _ =>
         Replied (Redirect (frontendUrl env
                            ++ js "?error=LinkedIn%20authentication%20failed"))
     | Fulfilled response_data =>
         match (accessToken ← get_prop response_data (js "access_token");
                ToString NumberToString accessToken) with
         | Normal tok =>
             Replied (Redirect (frontendUrl env ++ js "?linkedin_token=" ++ tok))
         | Throw _ =>
             Replied (Redirect (frontendUrl env
                                ++ js "?error=LinkedIn%20authentication%20failed"))
         end
     end).
Proof.
  intros He Hc. unfold linkedin_callback. rewrite He, Hc. cbn [negb run].
  destruct (net (token_request env (own query (js "code")))) as [d|d];
    [|reflexivity].
  destruct (accessToken ← get_prop d (js "access_token");
            ToString NumberToString accessToken); reflexivity.
Qed.

(** X13. The callback with a code and no error, the exchange fulfilled
    with an [access_token] string: one outbound call, the token exchange,
    then a redirect to the frontend URL with [?linkedin_token=] followed by
    the token as it is (it is not URL-encoded). *)
Theorem callback_token_redirect
    (env : Env) (query od : gmap jsstring JsVal) (code : JsVal) (tok : jsstring) :
  truthy (own query (js "error")) = false ->
  query !! js "code" = Some code ->
  truthy code = true ->
  net (token_request env code) = Fulfilled (JObj od) ->
  od !! js "access_token" = Some (JStr tok) ->
  run net (linkedin_callback NumberToString env query)
  = ([token_request env code],
     Replied (Redirect (frontendUrl env ++ js "?linkedin_token=" ++ tok))).
Proof.
  intros He Hq Hc Hnet Ht.
  rewrite callback_exchange; rewrite ?(own_Some _ _ _ Hq); try assumption.
  rewrite Hnet. js_step. rewrite Ht. reflexivity.
Qed.

(** X14. The callback with a code and no error, the exchange rejected or
    answered with [null]: a redirect to the frontend URL with
    [?error=LinkedIn%20authentication%20failed]. *)
Theorem callback_exchange_failed
    (env : Env) (query : gmap jsstring JsVal) (code : JsVal) :
  truthy (own query (js "error")) = false ->
  query !! js "code" = Some code ->
  truthy code = true ->
  (exists d, net (token_request env code) = Rejected d)
  \/ net (token_request env code) = Fulfilled JNull ->
  run net (linkedin_callback NumberToString env query)
  = ([token_request env code],
     Replied (Redirect (frontendUrl env
                        ++ js "?error=LinkedIn%20authentication%20failed"))).
Proof.
  intros He Hq Hc Hnet.
  rewrite callback_exchange; rewrite ?(own_Some _ _ _ Hq); try assumption.
  destruct Hnet as [[d ->] | ->]; reflexivity.
Qed.

(** X15. The callback does not check that the exchange returned a token:
    a fulfilled exchange whose response has no [access_token] redirects
    with [?linkedin_token=undefined]. *)
Theorem callback_token_missing
    (env : Env) (query od : gmap jsstring JsVal) (code : JsVal) :
  truthy (own query (js "error")) = false ->
  query !! js "code" = Some code ->
  truthy code = true ->
  net (token_request env code) = Fulfilled (JObj od) ->
  od !! js "access_token" = None ->
  run net (linkedin_callback NumberToString env query)
  = ([token_request env code],
     Replied (Redirect (frontendUrl env ++ js "?linkedin_token=undefined"))).
Proof.
  intros He Hq Hc Hnet Ht.
  rewrite callback_exchange; rewrite ?(own_Some _ _ _ Hq); try assumption.
  rewrite Hnet. js_step. rewrite Ht. reflexivity.
Qed.

(** X16. Without an [error] parameter (or with an empty one) the callback
    always ends in a redirect to the frontend URL, whatever the query and
    the network are, after at most one outbound call. *)
Theorem callback_always_redirects (env : Env) (query : gmap jsstring JsVal) :
  truthy (own query (js "error")) = false ->
  exists calls rest,
    run net (linkedin_callback NumberToString env query)
    = (calls, Replied (Redirect (frontendUrl env ++ rest)))
    /\ (length calls <= 1)%nat.
Proof.
  intros He.
  destruct (truthy (own query (js "code"))) eqn:Hc.
  - rewrite (callback_exchange env query He Hc).
    destruct (net (token_request env (own query (js "code")))) as [d|d].
    + destruct (accessToken ← get_prop d (js "access_token");
                ToString NumberToString accessToken);
        eexists _, _; (split; [reflexivity | cbn; lia]).
    + eexists _, _. split; [reflexivity | cbn; lia].
  - unfold linkedin_callback. rewrite He, Hc.
    eexists _, _. split; [reflexivity | cbn; lia].
Qed.

(** ** OAuth redirect *)

(** X17. The redirect URI cannot reach outside its parameter: in the
    authorization URL its value consists of unreserved characters and
    percent escapes, so a [?], [&], [=] or [#] of the configured URI is
    escaped. *)
Theorem auth_linkedin_redirect_uri_safe (env : Env) (clientId redirectUri : jsstring) :
  LINKEDIN_CLIENT_ID env = Some clientId ->
  LINKEDIN_REDIRECT_URI env = Some redirectUri ->
  forallb is_code_unit redirectUri = true ->
  forall location,
    auth_linkedin NumberToString env = Replied (Redirect location) ->
    exists enc,
      location
      = js "https://www.linkedin.com/oauth/v2/authorization?response_type=code&client_id="
        ++ clientId ++ js "&redirect_uri=" ++ enc ++ js "&scope=w_member_social"
      /\ forallb url_safe enc = true.
Proof.
  intros Hid Huri Hu location. unfold auth_linkedin. rewrite Hid, Huri.
  cbn [env_val from_option].
  destruct (negb (truthy (JStr clientId)) || negb (truthy (JStr redirectUri)));
    [discriminate|].
  unfold encodeURIComponent_of. cbn [ToString mbind mret Completion_bind Completion_ret].
  destruct (encodeURIComponent redirectUri) as [enc|] eqn:E; [|discriminate].
  intros [= <-]. exists enc. split; [reflexivity|].
  exact (encodeURIComponent_safe _ Hu _ E).
Qed.

(** ** Publish *)

(** X18. POST /linkedin/post with a token string and a content, the
    upstream call fulfilled: one outbound call, carrying the token as
    bearer and the content as the text to share, then status 200 with
    [{"success":true,"message":"Posted on LinkedIn!"}], whatever the
    upstream response holds. *)
Theorem linkedin_post_published
    (o : gmap jsstring JsVal) (token : jsstring) (content d : JsVal) :
  o !! js "token" = Some (JStr token) ->
  o !! js "content" = Some content ->
  truthy (JStr token) = true ->
  truthy content = true ->
  net (ugc_post_request token content) = Fulfilled d ->
  run net (linkedin_post NumberToString (JObj o))
  = ([ugc_post_request token content],
     Replied (Json 200 (object [field "success" (JBool true);
                                field "message" (text "Posted on LinkedIn!")]))).
Proof.
  intros Ht Hc Tt Tc Hnet. unfold linkedin_post. js_step. rewrite Ht, Hc.
  cbn [from_option id]. rewrite Tt, Tc. cbn [negb orb ToString run].
  rewrite Hnet. reflexivity.
Qed.

(** X19. POST /linkedin/post whose upstream call is rejected: status 500
    with error ["Failed to post on LinkedIn"]; the details are the
    [message] of the upstream payload when the payload is an object with a
    truthy [message], and ["LinkedIn API error"] otherwise. *)
Theorem linkedin_post_rejected
    (o : gmap jsstring JsVal) (token : jsstring) (content : JsVal)
    (d : option JsVal) :
  o !! js "token" = Some (JStr token) ->
  o !! js "content" = Some content ->
  truthy (JStr token) = true ->
  truthy content = true ->
  net (ugc_post_request token content) = Rejected d ->
  run net (linkedin_post NumberToString (JObj o))
  = ([ugc_post_request token content],
     Replied (Json 500 (object [
       field "error" (text "Failed to post on LinkedIn");
       field "details"
         match d with
         | Some (JObj payload) =>
             match payload !! js "message" with
             | Some v => if truthy v then v else text "LinkedIn API error"
             | None => text "LinkedIn API error"
             end
         | _ => text "LinkedIn API error"
         end]))).
Proof.
  intros Ht Hc Tt Tc Hnet. unfold linkedin_post. js_step. rewrite Ht, Hc.
  cbn [from_option id]. rewrite Tt, Tc. cbn [negb orb ToString run].
  rewrite Hnet. cbn [run].
  unfold publish_failed, error_response_data_prop, get_prop_opt, js_or, own.
  destruct d as [[| | | | | |payload]|]; try reflexivity.
  destruct (payload !! js "message"); reflexivity.
Qed.

(** ** All handlers *)

(** X20. No handler issues more than one outbound call, whatever the
    request, the configuration and the network are. *)
Theorem at_most_one_outbound_call
    (env : Env) (query : gmap jsstring JsVal) (body : JsVal) :
  (length (fst (run net (news NumberToString parseString query))) <= 1)%nat
  /\ (length (fst (run net (generate_post NumberToString env body))) <= 1)%nat
  /\ (length (fst (run net (linkedin_callback NumberToString env query))) <= 1)%nat
  /\ (length (fst (run net (linkedin_post NumberToString body))) <= 1)%nat.
Proof.
  repeat split.
  - unfold news.
    destruct (negb (truthy (own query (js "keyword")))); [cbn; lia|].
    destruct (encodeURIComponent_of NumberToString (own query (js "keyword")))
      as [q|]; [|cbn; lia].
    cbn [run]. destruct (net _) as [d|d]; [|cbn; lia].
    destruct (match parseString d with
              | ParseError err => news_callback err JUndefined
              | Parsed result => news_callback JNull result
              end); cbn; lia.
  - unfold generate_post.
    destruct (get_prop body (js "articles")) as [articles|]; [|cbn; lia].
    destruct (negb (truthy articles) || negb (isArray articles)
              || length_is_zero articles); [cbn; lia|].
    destruct (prompt_content NumberToString articles) as [content|]; [|cbn; lia].
    cbn [run]. destruct (net _) as [d|d]; [|cbn; lia].
    destruct (first_choice_text d); cbn; lia.
  - unfold linkedin_callback.
    destruct (truthy (own query (js "error"))); [cbn; lia|].
    destruct (negb (truthy (own query (js "code")))); [cbn; lia|].
    cbn [run]. destruct (net _) as [d|d]; [|cbn; lia].
    destruct (accessToken ← get_prop d (js "access_token");
              ToString NumberToString accessToken); cbn; lia.
  - unfold linkedin_post.
    destruct (token ← get_prop body (js "token");
              content ← get_prop body (js "content"); mret (token, content))
      as [[token content]|]; [|cbn; lia].
    destruct (negb (truthy token) || negb (truthy content)); [cbn; lia|].
    destruct (ToString NumberToString token) as [bearer|]; [|cbn; lia].
    cbn [run]. destruct (net _); cbn; lia.
Qed.

End Behaviour.

(* ===================================================================== *)
(** * The further properties at sample requests *)
(* ===================================================================== *)

(** The news server is down. *)
Lemma news_fetch_failed_witness :
  run no_network (news NumberToString parseString bitcoin)
  = ([axios_get (js "https://news.google.com/rss/search?q=bitcoin")],
     Replied (Json 500 (object [field "error" (text "Failed to fetch news")]))).
Proof.
  apply (news_fetch_failed NumberToString parseString no_network bitcoin
           (js "bitcoin") None); reflexivity.
Defined.

(** The news server answers with something that is not XML. *)
Lemma news_parse_failed_witness :
  run (answers (text "oops")) (news NumberToString unparsable bitcoin)
  = ([axios_get (js "https://news.google.com/rss/search?q=bitcoin")],
     Replied (Json 500 (object [field "error" (text "Failed to parse RSS feed")]))).
Proof.
  apply (news_parse_failed NumberToString unparsable (answers (text "oops")) bitcoin
           (js "bitcoin") (text "oops")
           (object [field "message" (text "Non-whitespace before first tag.")]));
    reflexivity.
Defined.

(** A feed whose channel has a title and no item. *)
Lemma news_not_found_witness :
  let result := object [field "rss" (object [
                  field "channel" (JArr [object [field "title" (values "empty")]])])] in
  run (answers (text "<rss/>")) (news NumberToString (parses result) bitcoin)
  = ([axios_get (js "https://news.google.com/rss/search?q=bitcoin")],
     Replied (Json 404 (object [field "error" (text "No articles found for this keyword")]))).
Proof.
  apply (news_not_found NumberToString
           (parses (object [field "rss" (object [
              field "channel" (JArr [object [field "title" (values "empty")]])])]))
           (answers (text "<rss/>")) bitcoin (js "bitcoin") (text "<rss/>")
           (list_to_map [field "rss" (object [
              field "channel" (JArr [object [field "title" (values "empty")]])])]));
    try reflexivity.
  right. exists (list_to_map [field "channel" (JArr [object [field "title" (values "empty")]])]).
  split; [reflexivity|]. right. right.
  exists (list_to_map [field "title" (values "empty")]), []. split; reflexivity.
Defined.

(** The feed of seven items. *)
Lemma news_never_more_than_five_witness :
  exists articles,
    object [field "articles" (JArr (article_json <$>
      match mapM article_of_item (take 5 seven_items) with
      | Normal l => l
      | Throw _ => []
      end))]
    = object [field "articles" (JArr (article_json <$> articles))]
    /\ (length articles <= 5)%nat.
Proof.
  apply (news_never_more_than_five NumberToString parseString (answers (JStr [0x37]))
           bitcoin [axios_get (js "https://news.google.com/rss/search?q=bitcoin")]).
  reflexivity.
Defined.

(** Seven items, and the same first five followed by another sixth. *)
Lemma news_callback_first_five_only_witness :
  news_callback JNull (feed seven_items)
  = news_callback JNull (feed (take 5 seven_items ++ [untitled_item])).
Proof.
  apply (news_callback_first_five_only
           (feed seven_items) (feed (take 5 seven_items ++ [untitled_item]))
           seven_items (take 5 seven_items ++ [untitled_item]));
    reflexivity.
Defined.

(** A feed whose second item has no title. *)
Lemma news_item_without_child_witness :
  run (answers (text "<rss>...</rss>"))
      (news NumberToString (parses (feed [item "one"; untitled_item])) bitcoin)
  = ([axios_get (js "https://news.google.com/rss/search?q=bitcoin")],
     Replied (Json 500 (object [field "error" (text "Failed to fetch news")]))).
Proof.
  apply (news_item_without_child NumberToString
           (parses (feed [item "one"; untitled_item]))
           (answers (text "<rss>...</rss>")) bitcoin (js "bitcoin")
           (text "<rss>...</rss>") (feed [item "one"; untitled_item])
           [item "one"; untitled_item]
           (list_to_map [field "link" (values "https://news.example/b");
                         field "pubDate" (values "Mon, 02 Nov 2026 11:00:00 GMT")])
           "title"%string);
    try reflexivity.
  - right. left. reflexivity.
  - left. reflexivity.
Defined.

(** [/news?keyword=a b%26c%3Dd] *)
Lemma news_call_url_safe_witness :
  let q := query [field "keyword" (text "a b&c=d")] in
  fst (run no_network (news NumberToString parseString q)) = []
  \/ exists enc,
       fst (run no_network (news NumberToString parseString q))
       = [axios_get (js "https://news.google.com/rss/search?q=" ++ enc)]
       /\ forallb url_safe enc = true.
Proof.
  apply (news_call_url_safe NumberToString parseString no_network
           (query [field "keyword" (text "a b&c=d")]) (js "a b&c=d"));
    reflexivity.
Defined.

Example news_call_escaped :
  fst (run no_network
         (news NumberToString parseString (query [field "keyword" (text "a b&c=d")])))
  = [axios_get (js "https://news.google.com/rss/search?q=a%20b%26c%3Dd")].
Proof. reflexivity. Qed.

(** The language model answers 429 with an error payload. *)
Lemma generate_post_upstream_rejected_witness :
  let payload := object [field "error" (text "Rate limit exceeded")] in
  run (rejects (Some payload))
      (generate_post NumberToString env1 articles_body)
  = ([completion_request env1 (js "(1) Rates cut - Again")],
     Replied (Json 500 (object [field "error" (text "Failed to generate post");
                                field "details" (text "Rate limit exceeded")]))).
Proof.
  apply (generate_post_upstream_rejected NumberToString
           (rejects (Some (object [field "error" (text "Rate limit exceeded")]))) env1
           (list_to_map [field "articles" (JArr [one_article])])
           one_article [] (js "(1) Rates cut - Again")
           (Some (object [field "error" (text "Rate limit exceeded")])));
    reflexivity.
Defined.

(** The language model answers 200 with an empty object. *)
Lemma generate_post_unusable_response_witness :
  run (answers (object [])) (generate_post NumberToString env1 articles_body)
  = ([completion_request env1 (js "(1) Rates cut - Again")],
     Replied (Json 500 (object [field "error" (text "Failed to generate post");
                                field "details" (text "AI service unavailable")]))).
Proof.
  apply (generate_post_unusable_response NumberToString (answers (object [])) env1
           (list_to_map [field "articles" (JArr [one_article])])
           one_article [] (js "(1) Rates cut - Again") ∅);
    try reflexivity.
  left. reflexivity.
Defined.

(** The language model answers with two spaces and a line feed. *)
Lemma generate_post_blank_text_witness :
  run (answers (completion [0x20; 0x20; 0x0A]))
      (generate_post NumberToString env1 articles_body)
  = ([completion_request env1 (js "(1) Rates cut - Again")],
     Replied (Json 200 (object [field "post" (JStr [])]))).
Proof.
  apply (generate_post_blank_text NumberToString
           (answers (completion [0x20; 0x20; 0x0A])) env1
           (list_to_map [field "articles" (JArr [one_article])])
           one_article [] (js "(1) Rates cut - Again")
           (list_to_map [field "choices"
              (JArr [object [field "message"
                               (object (assistant_message [0x20; 0x20; 0x0A]))]])])
           (list_to_map [field "message" (object (assistant_message [0x20; 0x20; 0x0A]))])
           (list_to_map (assistant_message [0x20; 0x20; 0x0A]))
           [] [0x20; 0x20; 0x0A]);
    reflexivity.
Defined.

(** [{"articles":[{...},null]}] *)
Lemma generate_post_null_article_witness :
  exists e,
    run no_network
      (generate_post NumberToString env1
         (object [field "articles" (JArr [one_article; JNull])]))
    = ([], Uncaught e).
Proof.
  apply (generate_post_null_article NumberToString no_network env1
           (list_to_map [field "articles" (JArr [one_article; JNull])])
           [one_article; JNull]).
  - reflexivity.
  - right. left. reflexivity.
Defined.

(** [{"articles":[{}]}] *)
Lemma generate_post_missing_fields_witness :
  fst (run no_network
         (generate_post NumberToString env1 (object [field "articles" (JArr [object []])])))
  = [completion_request env1 (js "(1) undefined - undefined")].
Proof.
  apply (generate_post_missing_fields NumberToString no_network env1
           (list_to_map [field "articles" (JArr [object []])]) ∅);
    reflexivity.
Defined.

(** [?code=abc], the exchange answered with a token. *)
Lemma callback_token_redirect_witness :
  run (answers (object [field "access_token" (text "AQX-token")]))
      (linkedin_callback NumberToString env1 code_query)
  = ([token_request env1 (text "abc")],
     Replied (Redirect (js "https://app.example?linkedin_token=AQX-token"))).
Proof.
  apply (callback_token_redirect NumberToString
           (answers (object [field "access_token" (text "AQX-token")])) env1
           code_query (list_to_map [field "access_token" (text "AQX-token")])
           (text "abc") (js "AQX-token"));
    reflexivity.
Defined.

(** [?code=abc], the exchange refused. *)
Lemma callback_exchange_failed_witness :
  run (rejects (Some (object [field "error" (text "invalid_grant")])))
      (linkedin_callback NumberToString env1 code_query)
  = ([token_request env1 (text "abc")],
     Replied (Redirect (js "https://app.example?error=LinkedIn%20authentication%20failed"))).
Proof.
  apply (callback_exchange_failed NumberToString
           (rejects (Some (object [field "error" (text "invalid_grant")]))) env1
           code_query (text "abc"));
    try reflexivity.
  left. eexists. reflexivity.
Defined.

(** [?code=abc], the exchange answered with an empty object. *)
Lemma callback_token_missing_witness :
  run (answers (object [])) (linkedin_callback NumberToString env1 code_query)
  = ([token_request env1 (text "abc")],
     Replied (Redirect (js "https://app.example?linkedin_token=undefined"))).
Proof.
  apply (callback_token_missing NumberToString (answers (object [])) env1
           code_query ∅ (text "abc"));
    reflexivity.
Defined.

(** [?code=abc] with the network down. *)
Lemma callback_always_redirects_witness :
  exists calls rest,
    run no_network (linkedin_callback NumberToString env1 code_query)
    = (calls, Replied (Redirect (js "https://app.example" ++ rest)))
    /\ (length calls <= 1)%nat.
Proof.
  apply (callback_always_redirects NumberToString no_network env1 code_query).
  reflexivity.
Defined.

(** The configured deployment. *)
Lemma auth_linkedin_redirect_uri_safe_witness :
  exists enc,
    js "https://www.linkedin.com/oauth/v2/authorization?response_type=code&client_id=86abc&redirect_uri=http%3A%2F%2Flocalhost%3A5000%2Fauth%2Flinkedin%2Fcallback&scope=w_member_social"
    = js "https://www.linkedin.com/oauth/v2/authorization?response_type=code&client_id="
      ++ js "86abc" ++ js "&redirect_uri=" ++ enc ++ js "&scope=w_member_social"
    /\ forallb url_safe enc = true.
Proof.
  apply (auth_linkedin_redirect_uri_safe NumberToString env1 (js "86abc")
           (js "http://localhost:5000/auth/linkedin/callback"));
    reflexivity.
Defined.

(** [{"token":"AQX-token","content":"Hello"}], accepted upstream. *)
Lemma linkedin_post_published_witness :
  run (answers (object [field "id" (text "urn:li:share:1")]))
      (linkedin_post NumberToString (JObj publish_body))
  = ([ugc_post_request (js "AQX-token") (text "Hello")],
     Replied (Json 200 (object [field "success" (JBool true);
                                field "message" (text "Posted on LinkedIn!")]))).
Proof.
  apply (linkedin_post_published NumberToString
           (answers (object [field "id" (text "urn:li:share:1")]))
           publish_body (js "AQX-token") (text "Hello")
           (object [field "id" (text "urn:li:share:1")]));
    reflexivity.
Defined.

(** The same body, refused upstream with a message. *)
Lemma linkedin_post_rejected_witness :
  run (rejects (Some (object [field "message" (text "Invalid access token")])))
      (linkedin_post NumberToString (JObj publish_body))
  = ([ugc_post_request (js "AQX-token") (text "Hello")],
     Replied (Json 500 (object [field "error" (text "Failed to post on LinkedIn");
                                field "details" (text "Invalid access token")]))).
Proof.
  apply (linkedin_post_rejected NumberToString
           (rejects (Some (object [field "message" (text "Invalid access token")])))
           publish_body (js "AQX-token") (text "Hello")
           (Some (object [field "message" (text "Invalid access token")])));
    reflexivity.
Defined.
